(** * AT25SF041 SPI serial flash driver: a shallow embedding of
      [source/at25sf041.c] and the properties of its probe, register,
      read and write paths.

    Integer model.  The driver is written for a 32-bit kernel: the
    kernel's [min] macro demands operands of one type, and
    [min(max_addr, from + len)] has that only where [size_t] is narrower
    than [loff_t].  So [int], [ssize_t] are 32-bit signed, [size_t] and
    [unsigned] 32-bit unsigned, [loff_t] 64-bit signed, [uint64_t] 64-bit
    unsigned and [u8] 8-bit unsigned.  Values are carried as [Z] and every
    conversion of the C code is written out as a wrap-around.

    Effects.  The only effects of the driver are SPI transactions
    ([spi_sync]) and kernel log lines ([dev_warn]).  A driver function is a
    function from the state of the bus to its result, the events it
    produced (in order) and the new state of the bus.  The bus itself is an
    interface ([SpiBus]): the theorems hold for every bus. *)

From Stdlib Require Import ZArith List Bool Lia String.
Import ListNotations.
Local Open Scope Z_scope.

(** ** Machine integers *)

Definition wrap_unsigned (bits x : Z) : Z := x mod 2 ^ bits.

Definition wrap_signed (bits x : Z) : Z :=
  (x + 2 ^ (bits - 1)) mod 2 ^ bits - 2 ^ (bits - 1).

Definition to_u8 : Z -> Z := wrap_unsigned 8.
Definition to_int : Z -> Z := wrap_signed 32.
Definition to_unsigned : Z -> Z := wrap_unsigned 32.
Definition to_size_t : Z -> Z := wrap_unsigned 32.
Definition to_ssize_t : Z -> Z := wrap_signed 32.
Definition to_loff_t : Z -> Z := wrap_signed 64.

Definition SSIZE_MAX : Z := 2 ^ 31 - 1.
Definition SIZE_MAX : Z := 2 ^ 32 - 1.

(** ** Constants *)

(** From the driver. *)
Definition AT25SF041_MAN_ID : Z := 0x1F.
Definition AT25SF041_DEV_ID1 : Z := 0x84.
Definition AT25SF041_DEV_ID2 : Z := 0x01.
Definition AT25SF041_PAGE_SIZE : Z := 256.

(** [static bool verbose = true;] and nothing assigns it. *)
Definition verbose : bool := true.

(** From the kernel headers the driver includes ([linux/mtd/spi-nor.h],
    [errno.h]). *)
Definition SPINOR_OP_RDSR : Z := 0x05.
Definition SPINOR_OP_RDID : Z := 0x9f.
Definition SR_WIP : Z := 1.
Definition EIO : Z := 5.

(** ** Data *)

(** [struct spi_transfer], the fields the driver sets.  A buffer pointer is
    the contents it points to: [tx_buf] the bytes to send, [rx_buf] the
    contents of the receive buffer before the transfer.  [xfer_len] is the
    field [len] (an [unsigned]). *)
Record spi_transfer : Type := {
  tx_buf : option (list Z);
  rx_buf : option (list Z);
  xfer_len : Z;
  cs_change : bool
}.

(** [struct spi_message] after [spi_message_init] and a run of
    [spi_message_add_tail]: the transfers in order. *)
Definition spi_message : Type := list spi_transfer.

(** [struct spi_nor], the one field the driver reads: [nor->mtd.size]
    (a [uint64_t]). *)
Record spi_nor : Type := {
  mtd_size : Z
}.

(** [struct at25sf041_page].  [buffer_start] points into the caller's write
    buffer: it is the buffer from the cursor on. *)
Record at25sf041_page : Type := {
  spi_addr_start : Z;
  buffer_start : list Z;
  len : Z
}.

(** ** Events *)

Inductive event : Type :=
| EvSpiSync (m : spi_message) (result : Z)
    (** one [spi_sync] call: the message and what the transport returned *)
| EvWritePage (page : at25sf041_page) (result : Z)
    (** one [at25sf041_write_page] call, recorded when it returns *)
| EvDevWarn (fmt : string) (result : Z).
    (** one [dev_warn] line *)

(** The transactions put on the bus, in order. *)
Fixpoint syncs (evs : list event) : list spi_message :=
  match evs with
  | [] => []
  | EvSpiSync m _ :: evs' => m :: syncs evs'
  | _ :: evs' => syncs evs'
  end.

(** The page-program calls with their results, in order. *)
Fixpoint page_calls (evs : list event) : list (at25sf041_page * Z) :=
  match evs with
  | [] => []
  | EvWritePage p r :: evs' => (p, r) :: page_calls evs'
  | _ :: evs' => page_calls evs'
  end.

(** ** The transport *)

(** The SPI controller and whatever is wired to it.  One transaction takes
    the message and answers with the status the controller reports and the
    bytes clocked in during the receiving transfers. *)
Class SpiBus : Type := {
  bus : Type;
  bus_xfer : bus -> spi_message -> Z * list Z * bus
}.

(** List helpers with a [Z] count, as the lengths are machine integers. *)
Fixpoint take {A : Type} (n : Z) (l : list A) {struct l} : list A :=
  if 0 <? n then
    match l with
    | [] => []
    | x :: l' => x :: take (n - 1) l'
    end
  else [].

Fixpoint drop {A : Type} (n : Z) (l : list A) {struct l} : list A :=
  if 0 <? n then
    match l with
    | [] => []
    | _ :: l' => drop (n - 1) l'
    end
  else l.

(** Received bytes overwrite a buffer from its start; what is not
    overwritten keeps its old contents. *)
Fixpoint overlay (new old : list Z) : list Z :=
  match new, old with
  | [], _ => old
  | _ :: _, [] => []
  | n :: new', _ :: old' => to_u8 n :: overlay new' old'
  end.

(** The receive buffers of a message after the transfer, in order: each
    receiving transfer consumes [xfer_len] of the incoming bytes. *)
Fixpoint deliver (m : spi_message) (miso : list Z) : list (list Z) :=
  match m with
  | [] => []
  | t :: m' =>
      match rx_buf t with
      | None => deliver m' miso
      | Some old =>
          overlay (take (xfer_len t) miso) old
            :: deliver m' (drop (xfer_len t) miso)
      end
  end.

(** ** A scripted bus

    A bus that answers the transactions it is given from a list, one entry
    per transaction, and reports [-EIO] with no data once the list is used
    up.  It is the bus of the examples. *)
Definition scripted_xfer (script : list (Z * list Z)) (m : spi_message)
  : Z * list Z * list (Z * list Z) :=
  match script with
  | [] => (- EIO, [], [])
  | answer :: script' => (answer, script')
  end.

Definition scripted_bus : SpiBus :=
  {| bus := list (Z * list Z); bus_xfer := scripted_xfer |}.

(** What a connected, idle chip answers to the probe: status [0x00] and the
    identity of the AT25SF041. *)
Definition probe_idle : Z * list Z :=
  (0, [0x00; AT25SF041_MAN_ID; AT25SF041_DEV_ID1; AT25SF041_DEV_ID2]).

(** The chip as [spi_nor_scan] finds it: 4 Mbit. *)
Definition at25sf041_nor : spi_nor := {| mtd_size := 0x80000 |}.

(** Evaluates the list of a [Forall] goal and checks its elements. *)
Ltac forall_by_computation :=
  match goal with
  | |- Forall ?P ?l =>
      let l' := eval vm_compute in l in
      change (Forall P l'); repeat constructor; try lia
  end.

Section Driver.

Context {B : SpiBus}.

(** ** The monad of driver code *)

Definition M (A : Type) : Type := bus -> A * list event * bus.

Definition ret {A : Type} (a : A) : M A := fun b => (a, [], b).

Definition bind {A C : Type} (m : M A) (f : A -> M C) : M C :=
  fun b =>
    let '(a, e1, b1) := m b in
    let '(c, e2, b2) := f a b1 in
    (c, e1 ++ e2, b2).

Definition emit (e : event) : M unit := fun b => (tt, [e], b).

Notation "x <- m ;; k" := (bind m (fun x => k))
  (at level 61, m at next level, right associativity).
Notation "' pat <- m ;; k" := (bind m (fun x => match x with pat => k end))
  (at level 61, pat pattern, m at next level, right associativity).
Notation "m ;;; k" := (bind m (fun _ => k))
  (at level 61, right associativity).

(** [spi_sync]: runs the message, returns the [int] status and leaves the
    received bytes in the receive buffers. *)
Definition spi_sync (m : spi_message) : M (Z * list (list Z)) :=
  fun b =>
    let '(r, miso, b') := bus_xfer b m in
    ((to_int r, deliver m miso), [EvSpiSync m (to_int r)], b').

Definition dev_warn (fmt : string) (result : Z) : M unit :=
  emit (EvDevWarn fmt result).

(** Byte [j] of receive buffer [i]. *)
Definition rx_byte (rxs : list (list Z)) (i j : nat) : Z :=
  nth j (nth i rxs []) 0.

(** ** at25sf041_test_con *)

Definition at25sf041_test_con_message : spi_message :=
  let op_rdsr := SPINOR_OP_RDSR in
  let status := 0xAB in
  let op_rdid := SPINOR_OP_RDID in
  let id := [0; 0; 0] in
  let sr_req := {| tx_buf := Some [op_rdsr]; rx_buf := None;
                   xfer_len := 1; cs_change := false |} in
  let sr_res := {| tx_buf := None; rx_buf := Some [status];
                   xfer_len := 1; cs_change := true |} in
  let id_req := {| tx_buf := Some [op_rdid]; rx_buf := None;
                   xfer_len := 1; cs_change := false |} in
  let id_res := {| tx_buf := None; rx_buf := Some id;
                   xfer_len := Z.of_nat (List.length id);
                   cs_change := false |} in
  [sr_req; sr_res; id_req; id_res].

Definition at25sf041_test_con : M Z :=
  ' (result, rxs) <- spi_sync at25sf041_test_con_message ;;
  let status := rx_byte rxs 0 0 in
  let id := (rx_byte rxs 1 0, rx_byte rxs 1 1, rx_byte rxs 1 2) in
  if negb (0 =? result) then ret result
  else if 0xFF =? status then ret (- EIO)
  else if Z.land status SR_WIP =? 0 then
    let '(id0, id1, id2) := id in
    if negb (AT25SF041_MAN_ID =? id0)
       || negb (AT25SF041_DEV_ID1 =? id1)
       || negb (AT25SF041_DEV_ID2 =? id2)
    then ret (- EIO)
    else ret 0
  else ret 0.

(** ** at25sf041_read_reg and at25sf041_write_reg *)

(** The register transaction: the opcode, then the data transfer when
    [0 < len]. *)
Definition at25sf041_read_reg_message (opcode : Z) (buf : list Z) (len : Z)
  : spi_message :=
  let command_t := {| tx_buf := Some [opcode]; rx_buf := None;
                      xfer_len := 1; cs_change := false |} in
  let data_t := {| tx_buf := None; rx_buf := Some buf;
                   xfer_len := to_unsigned len; cs_change := false |} in
  command_t :: (if 0 <? len then [data_t] else []).

(** Returns the status and the contents of [buf] afterwards. *)
Definition at25sf041_read_reg (nor : spi_nor) (opcode : Z) (buf : list Z)
  (len : Z) : M (Z * list Z) :=
  result <- at25sf041_test_con ;;
  if negb (0 =? result) then
    (if verbose then dev_warn "read_reg test_con failed: %d\n" result
     else ret tt) ;;;
    ret (result, buf)
  else
    ' (result, rxs) <- spi_sync (at25sf041_read_reg_message opcode buf len) ;;
    let buf := if 0 <? len then nth 0 rxs buf else buf in
    if negb (0 =? result) then ret (result, buf)
    else ret (0, buf).

Definition at25sf041_write_reg_message (opcode : Z) (buf : list Z) (len : Z)
  : spi_message :=
  let command_t := {| tx_buf := Some [opcode]; rx_buf := None;
                      xfer_len := 1; cs_change := false |} in
  let data_t := {| tx_buf := Some (take len buf); rx_buf := None;
                   xfer_len := to_unsigned len; cs_change := false |} in
  command_t :: (if 0 <? len then [data_t] else []).

Definition at25sf041_write_reg (nor : spi_nor) (opcode : Z) (buf : list Z)
  (len : Z) : M Z :=
  result <- at25sf041_test_con ;;
  if negb (0 =? result) then
    (if verbose then dev_warn "write_reg test_con failed: %d\n" result
     else ret tt) ;;;
    ret result
  else
    ' (result, _) <- spi_sync (at25sf041_write_reg_message opcode buf len) ;;
    if negb (0 =? result) then ret result
    else ret 0.

(** ** at25sf041_read *)

(** [min] on two [loff_t]. *)
Definition min_loff_t (x y : Z) : Z := if x <? y then x else y.

(** [size_t read_len = end - from] with
    [end = min(max_addr, from + len)]. *)
Definition at25sf041_read_len (nor : spi_nor) (from len : Z) : Z :=
  let max_addr := to_loff_t (mtd_size nor) in
  let end_ := min_loff_t max_addr (to_loff_t (from + len)) in
  to_size_t (to_loff_t (end_ - from)).

Definition at25sf041_read_message (from : Z) (read_len : Z)
  (read_buf : list Z) : spi_message :=
  let command_buf :=
    [ (* read array opcode *)
      0x0b;
      (* address *)
      to_u8 (Z.land (Z.shiftr from 16) 0xFF);
      to_u8 (Z.land (Z.shiftr from 8) 0xFF);
      to_u8 (Z.land from 0xFF);
      (* dummy byte *)
      0 ] in
  let command_t := {| tx_buf := Some command_buf; rx_buf := None;
                      xfer_len := Z.of_nat (List.length command_buf);
                      cs_change := false |} in
  let data_t := {| tx_buf := None; rx_buf := Some read_buf;
                   xfer_len := to_unsigned read_len; cs_change := false |} in
  [command_t; data_t].

(** Returns the count (or the error) and the contents of [read_buf]
    afterwards. *)
Definition at25sf041_read (nor : spi_nor) (from len : Z) (read_buf : list Z)
  : M (Z * list Z) :=
  let read_len := at25sf041_read_len nor from len in
  result <- at25sf041_test_con ;;
  if negb (0 =? result) then
    (if verbose then dev_warn "read test_con failed: %d\n" result
     else ret tt) ;;;
    ret (to_ssize_t result, read_buf)
  else
    ' (result, rxs) <-
      spi_sync (at25sf041_read_message from read_len read_buf) ;;
    let read_buf := nth 0 rxs read_buf in
    if negb (0 =? result) then ret (to_ssize_t result, read_buf)
    else ret (to_ssize_t read_len, read_buf).

(** ** at25sf041_write_page *)

Definition at25sf041_write_page_message (page : at25sf041_page)
  : spi_message :=
  let command_buf :=
    [ (* program opcode *)
      0x02;
      (* address *)
      to_u8 (Z.land (Z.shiftr (spi_addr_start page) 16) 0xFF);
      to_u8 (Z.land (Z.shiftr (spi_addr_start page) 8) 0xFF);
      to_u8 (Z.land (spi_addr_start page) 0xFF) ] in
  let command_t := {| tx_buf := Some command_buf; rx_buf := None;
                      xfer_len := Z.of_nat (List.length command_buf);
                      cs_change := false |} in
  let data_t := {| tx_buf := Some (take (len page) (buffer_start page));
                   rx_buf := None;
                   xfer_len := to_unsigned (len page);
                   cs_change := false |} in
  [command_t; data_t].

(** The body of the function, without the record of the call. *)
Definition at25sf041_write_page_body (nor : spi_nor) (page : at25sf041_page)
  : M Z :=
  result <- at25sf041_test_con ;;
  let result := to_ssize_t result in
  if negb (0 =? result) then
    (if verbose then dev_warn "write_page test_con failed: %d\n" result
     else ret tt) ;;;
    ret result
  else
    ' (result, _) <- spi_sync (at25sf041_write_page_message page) ;;
    let result := to_ssize_t result in
    if negb (0 =? result) then ret result
    else ret (to_ssize_t (len page)).

Definition at25sf041_write_page (nor : spi_nor) (page : at25sf041_page)
  : M Z :=
  result <- at25sf041_write_page_body nor page ;;
  emit (EvWritePage page result) ;;;
  ret result.

(** ** at25sf041_write *)

(** [min] on two [size_t]. *)
Definition min_size_t (x y : Z) : Z := if x <? y then x else y.

(** The chunk of one iteration of the loop: [page_off], [page_rem] and the
    [struct at25sf041_page]. *)
Definition at25sf041_write_chunk (to : Z) (write_buf : list Z)
  (data_left : Z) : at25sf041_page :=
  let page_off := to_size_t (Z.land to 0xFF) in
  let page_rem := to_size_t (AT25SF041_PAGE_SIZE - page_off) in
  {| spi_addr_start := to;
     buffer_start := write_buf;
     len := min_size_t page_rem data_left |}.

(** The [for (; 0 < data_left;)] loop.  [fuel] bounds the number of
    iterations; [None] is returned when it runs out. *)
Fixpoint at25sf041_write_loop (fuel : nat) (nor : spi_nor) (write_len : Z)
  (to : Z) (write_buf : list Z) (data_left : Z) : M (option Z) :=
  if 0 <? data_left then
    match fuel with
    | O => ret None
    | S fuel' =>
        let page := at25sf041_write_chunk to write_buf data_left in
        result <- at25sf041_write_page nor page ;;
        if 0 >? result then ret (Some result)
        else if negb (len page =? to_size_t result) then ret (Some (- EIO))
        else
          at25sf041_write_loop fuel' nor write_len
            (to_loff_t (to + len page))
            (drop (len page) write_buf)
            (to_size_t (data_left - len page))
    end
  else ret (Some (to_ssize_t write_len)).

(** [size_t write_len = end - to] with [end = min(max_addr, to + len)]. *)
Definition at25sf041_write_len (nor : spi_nor) (to len : Z) : Z :=
  let max_addr := to_loff_t (mtd_size nor) in
  let end_ := min_loff_t max_addr (to_loff_t (to + len)) in
  to_size_t (to_loff_t (end_ - to)).

Definition at25sf041_write (fuel : nat) (nor : spi_nor) (to len : Z)
  (write_buf : list Z) : M (option Z) :=
  let write_len := at25sf041_write_len nor to len in
  let data_left := write_len in
  at25sf041_write_loop fuel nor write_len to write_buf data_left.

(** ** Reading a run *)

Definition result_of {A : Type} (run : A * list event * bus) : A :=
  fst (fst run).
Definition events_of {A : Type} (run : A * list event * bus) : list event :=
  snd (fst run).
Definition bus_of {A : Type} (run : A * list event * bus) : bus :=
  snd run.

(** A page-program call stays inside one page of the chip: it is not empty
    and its first and last byte lie in the same [AT25SF041_PAGE_SIZE]
    aligned page. *)
Definition within_one_page (page : at25sf041_page) : Prop :=
  0 < len page /\
  spi_addr_start page / AT25SF041_PAGE_SIZE
  = (spi_addr_start page + len page - 1) / AT25SF041_PAGE_SIZE.

(** The call returned the length it was asked to write. *)
Definition wrote_all (call : at25sf041_page * Z) : Prop :=
  snd call = len (fst call).

(** The bytes a run of page-program calls was asked to write. *)
Definition total_length (calls : list (at25sf041_page * Z)) : Z :=
  fold_right (fun call acc => len (fst call) + acc) 0 calls.

(** The statuses the transport reported for the transactions of a run, in
    order. *)
Fixpoint sync_results (evs : list event) : list Z :=
  match evs with
  | [] => []
  | EvSpiSync _ r :: evs' => r :: sync_results evs'
  | _ :: evs' => sync_results evs'
  end.

(** What the chip reads as the address of a command: the three bytes after
    the opcode of the first transfer, most significant first. *)
Definition command_address (m : spi_message) : option Z :=
  match m with
  | t :: _ =>
      match tx_buf t with
      | Some (_ :: a2 :: a1 :: a0 :: _) => Some (a2 * 65536 + a1 * 256 + a0)
      | _ => None
      end
  | [] => None
  end.

(** The bytes a page-program call sends after its command. *)
Definition page_data (page : at25sf041_page) : list Z :=
  take (len page) (buffer_start page).

(** Pages that follow one another from address [to] and buffer position
    [buf]: each is not empty and starts, on the chip and in the buffer,
    where the one before it ended. *)
Fixpoint chunks_from (to : Z) (buf : list Z) (pages : list at25sf041_page)
  : Prop :=
  match pages with
  | [] => True
  | page :: pages' =>
      spi_addr_start page = to /\
      buffer_start page = buf /\
      1 <= len page /\
      chunks_from (to + len page) (drop (len page) buf) pages'
  end.

(** * Properties *)

(** ** Machine integers *)

Lemma to_size_t_range x : 0 <= to_size_t x <= SIZE_MAX.
Proof.
  unfold to_size_t, wrap_unsigned, SIZE_MAX.
  pose proof (Z.mod_pos_bound x (2 ^ 32) ltac:(lia)). lia.
Qed.

Lemma to_size_t_id x : 0 <= x <= SIZE_MAX -> to_size_t x = x.
Proof.
  unfold to_size_t, wrap_unsigned, SIZE_MAX. intros H.
  apply Z.mod_small. lia.
Qed.

Lemma wrap_signed_32_range x : - 2 ^ 31 <= wrap_signed 32 x <= SSIZE_MAX.
Proof.
  unfold wrap_signed, SSIZE_MAX. change (32 - 1) with 31.
  pose proof (Z.mod_pos_bound (x + 2 ^ 31) (2 ^ 32) ltac:(lia)). lia.
Qed.

Lemma wrap_signed_32_id x :
  - 2 ^ 31 <= x <= SSIZE_MAX -> wrap_signed 32 x = x.
Proof.
  unfold wrap_signed, SSIZE_MAX. change (32 - 1) with 31. intros H.
  rewrite Z.mod_small; lia.
Qed.

Lemma to_loff_t_id x : - 2 ^ 63 <= x < 2 ^ 63 -> to_loff_t x = x.
Proof.
  unfold to_loff_t, wrap_signed. change (64 - 1) with 63. intros H.
  rewrite Z.mod_small; lia.
Qed.

Lemma to_ssize_t_id x : - 2 ^ 31 <= x <= SSIZE_MAX -> to_ssize_t x = x.
Proof. apply wrap_signed_32_id. Qed.

Lemma to_int_range x : - 2 ^ 31 <= to_int x <= SSIZE_MAX.
Proof. apply wrap_signed_32_range. Qed.

Lemma to_ssize_t_range x : - 2 ^ 31 <= to_ssize_t x <= SSIZE_MAX.
Proof. apply wrap_signed_32_range. Qed.

(** ** Events *)

Lemma syncs_app e1 e2 : syncs (e1 ++ e2) = syncs e1 ++ syncs e2.
Proof.
  induction e1 as [|[m r|p r|f r] e1 IH]; simpl; try rewrite IH; reflexivity.
Qed.

Lemma page_calls_app e1 e2 :
  page_calls (e1 ++ e2) = page_calls e1 ++ page_calls e2.
Proof.
  induction e1 as [|[m r|p r|f r] e1 IH]; simpl; try rewrite IH; reflexivity.
Qed.

(** ** The transport *)

(** A transaction is one event, and its status is an [int]. *)
Lemma spi_sync_run m b :
  exists r rxs b',
    spi_sync m b = ((r, rxs), [EvSpiSync m r], b') /\
    - 2 ^ 31 <= r <= SSIZE_MAX.
Proof.
  unfold spi_sync. destruct (bus_xfer b m) as [[r miso] b'].
  exists (to_int r), (deliver m miso), b'. split; [reflexivity|].
  apply to_int_range.
Qed.

Lemma overlay_length new old :
  List.length (overlay new old) = List.length old.
Proof.
  revert old. induction new as [|n new IH]; intros [|o old]; simpl;
    try rewrite IH; reflexivity.
Qed.

(** The probe always gets back one status byte and three identity bytes. *)
Lemma spi_sync_test_con_shape b :
  exists r status id0 id1 id2 b',
    spi_sync at25sf041_test_con_message b
    = ((r, [[status]; [id0; id1; id2]]),
       [EvSpiSync at25sf041_test_con_message r], b').
Proof.
  unfold spi_sync.
  destruct (bus_xfer b at25sf041_test_con_message) as [[r miso] b'].
  exists (to_int r).
  cbn [deliver at25sf041_test_con_message rx_buf xfer_len].
  set (st := overlay _ [171]). set (id := overlay _ [0; 0; 0]).
  assert (Hst : List.length st = 1%nat) by apply overlay_length.
  assert (Hid : List.length id = 3%nat) by apply overlay_length.
  destruct st as [|s [|]]; try discriminate.
  destruct id as [|i0 [|i1 [|i2 [|]]]]; try discriminate.
  eauto 10.
Qed.

(** ** The connection probe *)

(** The probe is one transaction, and its result is an [int]. *)
Lemma test_con_run b :
  exists r r0 b',
    at25sf041_test_con b
    = (r, [EvSpiSync at25sf041_test_con_message r0], b') /\
    - 2 ^ 31 <= r <= SSIZE_MAX.
Proof.
  unfold at25sf041_test_con, bind.
  destruct (spi_sync_run at25sf041_test_con_message b)
    as (r0 & rxs & b' & -> & Hr).
  assert (HE : - 2 ^ 31 <= - EIO <= SSIZE_MAX)
    by (unfold EIO, SSIZE_MAX; lia).
  assert (H0 : - 2 ^ 31 <= 0 <= SSIZE_MAX) by (unfold SSIZE_MAX; lia).
  destruct (negb (0 =? r0)); [simpl; eauto 10|].
  destruct (255 =? rx_byte rxs 0 0); [simpl; eauto 10|].
  destruct (Z.land (rx_byte rxs 0 0) SR_WIP =? 0); [|simpl; eauto 10].
  destruct (_ || _); simpl; eauto 10.
Qed.

(** C4.  When the probe's transaction succeeds and the status byte read is
    0xFF, the probe returns [-EIO] (disconnected), whatever the three
    identity bytes are. *)
Theorem test_con_status_ff b status id0 id1 id2 evs b' :
  spi_sync at25sf041_test_con_message b
  = ((0, [[status]; [id0; id1; id2]]), evs, b') ->
  status = 0xFF ->
  at25sf041_test_con b = (- EIO, evs, b').
Proof.
  intros Hsync ->. unfold at25sf041_test_con, bind. rewrite Hsync.
  simpl. rewrite app_nil_r. reflexivity.
Qed.

(** C5.  When the probe's transaction succeeds, the status byte is not 0xFF
    and its write-in-progress bit is set, the probe returns 0 (connected),
    whatever the three identity bytes are. *)
Theorem test_con_write_in_progress b status id0 id1 id2 evs b' :
  spi_sync at25sf041_test_con_message b
  = ((0, [[status]; [id0; id1; id2]]), evs, b') ->
  status <> 0xFF ->
  Z.land status SR_WIP <> 0 ->
  at25sf041_test_con b = (0, evs, b').
Proof.
  intros Hsync Hff Hwip. unfold at25sf041_test_con, bind. rewrite Hsync.
  change (0 =? 0) with true. cbn [negb rx_byte nth].
  destruct (Z.eqb_spec 255 status) as [E|_]; [congruence|].
  destruct (Z.eqb_spec (Z.land status SR_WIP) 0) as [E|_]; [congruence|].
  unfold ret. rewrite app_nil_r. reflexivity.
Qed.

(** C6.  When the probe's transaction succeeds and the status byte is 0x00,
    the probe returns 0 (connected) if the identity bytes are exactly
    0x1F, 0x84, 0x01 and [-EIO] (disconnected) if they differ in any
    position. *)
Theorem test_con_idle_identity b id0 id1 id2 evs b' :
  spi_sync at25sf041_test_con_message b
  = ((0, [[0x00]; [id0; id1; id2]]), evs, b') ->
  ((id0, id1, id2) = (0x1F, 0x84, 0x01) ->
   at25sf041_test_con b = (0, evs, b')) /\
  ((id0 <> 0x1F \/ id1 <> 0x84 \/ id2 <> 0x01) ->
   at25sf041_test_con b = (- EIO, evs, b')).
Proof.
  intros Hsync. unfold at25sf041_test_con, bind. rewrite Hsync.
  change (0 =? 0) with true. cbn [negb rx_byte nth].
  change (255 =? 0) with false. change (Z.land 0 SR_WIP =? 0) with true.
  cbv iota.
  unfold AT25SF041_MAN_ID, AT25SF041_DEV_ID1, AT25SF041_DEV_ID2, ret.
  split.
  - intros [= -> -> ->]. simpl. rewrite app_nil_r. reflexivity.
  - intros Hne.
    destruct (Z.eqb_spec 31 id0), (Z.eqb_spec 132 id1),
      (Z.eqb_spec 1 id2); simpl; rewrite app_nil_r; try reflexivity.
    lia.
Qed.

(** ** Register access *)

(** C8.  [at25sf041_read_reg] and [at25sf041_write_reg] start with the
    connection probe, run from the state the call found the bus in; the
    probe is one transaction.  When the probe fails, the call returns the
    probe's error, leaves the buffer alone and puts no further transaction
    on the bus. *)
Theorem register_access_probe_first nor opcode buf n b :
  let probe := at25sf041_test_con b in
  let rd := at25sf041_read_reg nor opcode buf n b in
  let wr := at25sf041_write_reg nor opcode buf n b in
  syncs (events_of probe) = [at25sf041_test_con_message] /\
  (exists rest,
     events_of rd = events_of probe ++ rest /\
     (result_of probe <> 0 ->
      result_of rd = (result_of probe, buf) /\
      syncs rest = [] /\ bus_of rd = bus_of probe)) /\
  (exists rest,
     events_of wr = events_of probe ++ rest /\
     (result_of probe <> 0 ->
      result_of wr = result_of probe /\
      syncs rest = [] /\ bus_of wr = bus_of probe)).
Proof.
  unfold at25sf041_read_reg, at25sf041_write_reg, bind.
  destruct (test_con_run b) as (r & r0 & b1 & -> & _).
  unfold result_of, events_of, bus_of. cbn [fst snd syncs].
  split; [reflexivity|].
  destruct (Z.eqb_spec 0 r) as [<-|Hr]; cbn [negb].
  - split.
    + destruct (spi_sync _ b1) as [[[r1 rxs] e1] b2].
      destruct (negb (0 =? r1)); cbn [ret fst snd];
        (eexists; split; [reflexivity|intros H; now elim H]).
    + destruct (spi_sync _ b1) as [[[r1 rxs] e1] b2].
      destruct (negb (0 =? r1)); cbn [ret fst snd];
        (eexists; split; [reflexivity|intros H; now elim H]).
  - split; (eexists; split; [reflexivity|intros _; auto]).
Qed.

(** ** Linear read *)

(** The clamp of the read path, on a device whose size is a valid byte
    count: a request that runs past the end is cut at the end. *)
Lemma read_len_clamped nor from n :
  0 <= mtd_size nor <= SSIZE_MAX ->
  0 <= from <= mtd_size nor ->
  0 <= n <= SIZE_MAX ->
  mtd_size nor <= from + n ->
  at25sf041_read_len nor from n = mtd_size nor - from.
Proof.
  unfold SSIZE_MAX, SIZE_MAX. intros Hsize Hfrom Hn Hend.
  unfold at25sf041_read_len, min_loff_t.
  rewrite (to_loff_t_id (mtd_size nor)) by lia.
  rewrite (to_loff_t_id (from + n)) by lia.
  destruct (Z.ltb_spec (mtd_size nor) (from + n)).
  - rewrite to_loff_t_id by lia. apply to_size_t_id. unfold SIZE_MAX. lia.
  - replace (from + n) with (mtd_size nor) by lia.
    rewrite to_loff_t_id by lia. apply to_size_t_id. unfold SIZE_MAX. lia.
Qed.

(** What [at25sf041_read] does once the probe has passed. *)
Lemma read_after_probe nor from n read_buf b e1 b1 r rxs e2 b2 :
  at25sf041_test_con b = (0, e1, b1) ->
  spi_sync (at25sf041_read_message from (at25sf041_read_len nor from n)
              read_buf) b1
  = ((r, rxs), e2, b2) ->
  at25sf041_read nor from n read_buf b
  = ((if negb (0 =? r) then to_ssize_t r
      else to_ssize_t (at25sf041_read_len nor from n),
      nth 0 rxs read_buf),
     e1 ++ e2, b2).
Proof.
  intros Hprobe Hsync. unfold at25sf041_read, bind.
  rewrite Hprobe. change (0 =? 0) with true. cbn [negb].
  rewrite Hsync.
  destruct (negb (0 =? r)); cbn [ret]; rewrite app_nil_r; reflexivity.
Qed.

(** C7.  A read that starts inside the device and runs past its end
    returns exactly [capacity - from] when the probe and the read
    transaction succeed: the request is cut at the end of the device, it
    is not an error. *)
Theorem read_truncates_at_capacity nor from n read_buf b e1 b1 rxs e2 b2 :
  0 <= mtd_size nor <= SSIZE_MAX ->
  0 <= from < mtd_size nor ->
  0 <= n <= SIZE_MAX ->
  mtd_size nor < from + n ->
  at25sf041_test_con b = (0, e1, b1) ->
  spi_sync (at25sf041_read_message from (mtd_size nor - from) read_buf) b1
  = ((0, rxs), e2, b2) ->
  at25sf041_read nor from n read_buf b
  = ((mtd_size nor - from, nth 0 rxs read_buf), e1 ++ e2, b2).
Proof.
  intros Hsize Hfrom Hn Hend Hprobe Hsync.
  assert (Hlen : at25sf041_read_len nor from n = mtd_size nor - from)
    by (apply read_len_clamped; lia).
  rewrite <- Hlen in Hsync.
  rewrite (read_after_probe _ _ _ _ _ _ _ _ _ _ _ Hprobe Hsync).
  change (0 =? 0) with true. cbn [negb]. rewrite Hlen.
  rewrite to_ssize_t_id by lia. reflexivity.
Qed.

(** C1, as the code does it.  A read at [from = capacity] is not answered
    without the bus: like every read it starts with the connection probe,
    and when the probe passes it puts the read transaction on the bus, with
    a data transfer of length 0.  When both succeed it returns 0. *)
Theorem read_at_capacity nor n read_buf b :
  0 <= mtd_size nor <= SSIZE_MAX ->
  0 <= n <= SIZE_MAX ->
  let from := mtd_size nor in
  let probe := at25sf041_test_con b in
  let rd := at25sf041_read nor from n read_buf b in
  syncs (events_of probe) = [at25sf041_test_con_message] /\
  (exists rest, events_of rd = events_of probe ++ rest) /\
  (result_of probe = 0 ->
   forall rxs e2 b2,
     spi_sync (at25sf041_read_message from 0 read_buf) (bus_of probe)
     = ((0, rxs), e2, b2) ->
     result_of rd = (0, nth 0 rxs read_buf) /\
     syncs (events_of rd)
     = [at25sf041_test_con_message; at25sf041_read_message from 0 read_buf]).
Proof.
  intros Hsize Hn from probe rd. subst probe rd.
  assert (Hlen : at25sf041_read_len nor from n = 0).
  { unfold from. rewrite read_len_clamped; lia. }
  destruct (test_con_run b) as (r & r0 & b1 & Hprobe & _).
  rewrite Hprobe. unfold result_of, events_of, bus_of. cbn [fst snd syncs].
  split; [reflexivity|]. split.
  - unfold at25sf041_read, bind. rewrite Hprobe.
    destruct (negb (0 =? r)).
    + eexists. reflexivity.
    + destruct (spi_sync _ b1) as [[[r1 rxs] e1] b2].
      destruct (negb (0 =? r1)); eexists; reflexivity.
  - intros -> rxs e2 b2 Hsync.
    destruct (spi_sync_run (at25sf041_read_message from 0 read_buf) b1)
      as (r1 & rxs1 & b2' & Hrun & _).
    rewrite Hsync in Hrun. injection Hrun as <- <- -> <-.
    rewrite <- Hlen in Hsync.
    rewrite (read_after_probe _ _ _ _ _ _ _ _ _ _ _ Hprobe Hsync).
    change (0 =? 0) with true. cbn [negb fst snd]. rewrite Hlen.
    split; reflexivity.
Qed.

(** ** Page program *)

(** A page-program call is recorded once, when it returns, with the value
    it returns, which is an [ssize_t]. *)
Lemma write_page_run nor page b :
  exists r evs b',
    at25sf041_write_page nor page b = (r, evs ++ [EvWritePage page r], b') /\
    page_calls evs = [] /\
    - 2 ^ 31 <= r <= SSIZE_MAX.
Proof.
  unfold at25sf041_write_page, at25sf041_write_page_body, bind.
  destruct (test_con_run b) as (r & r0 & b1 & -> & _).
  pose proof (to_ssize_t_range r) as Hr.
  destruct (negb (0 =? to_ssize_t r)).
  - simpl. eexists _, [_; _], _. simpl. eauto.
  - destruct (spi_sync_run (at25sf041_write_page_message page) b1)
      as (r1 & rxs & b2 & -> & _).
    pose proof (to_ssize_t_range r1) as Hr1.
    pose proof (to_ssize_t_range (len page)) as Hl.
    destruct (negb (0 =? to_ssize_t r1));
      simpl; eexists _, [_; _], _; simpl; eauto.
Qed.

(** ** The splitting write *)

Lemma land_255 x : Z.land x 0xFF = x mod 256.
Proof. change 0xFF with (Z.ones 8). apply Z.land_ones. lia. Qed.

(** The chunk of an iteration that has data left: at least one byte, no
    more than what is left, and inside one page. *)
Lemma write_chunk_spec to write_buf data_left :
  0 < data_left ->
  let page := at25sf041_write_chunk to write_buf data_left in
  spi_addr_start page = to /\
  buffer_start page = write_buf /\
  len page
  = Z.min (AT25SF041_PAGE_SIZE - to mod AT25SF041_PAGE_SIZE) data_left /\
  1 <= len page <= data_left /\
  within_one_page page.
Proof.
  intros Hleft. unfold at25sf041_write_chunk, within_one_page.
  cbn [spi_addr_start buffer_start len]. unfold AT25SF041_PAGE_SIZE.
  rewrite land_255.
  pose proof (Z.mod_pos_bound to 256 ltac:(lia)) as Hoff.
  rewrite (to_size_t_id (to mod 256)) by (unfold SIZE_MAX; lia).
  rewrite (to_size_t_id (256 - to mod 256)) by (unfold SIZE_MAX; lia).
  set (l := min_size_t (256 - to mod 256) data_left).
  assert (Hl : l = Z.min (256 - to mod 256) data_left).
  { unfold l, min_size_t.
    destruct (Z.ltb_spec (256 - to mod 256) data_left); lia. }
  repeat split; try lia.
  pose proof (Z.div_mod to 256 ltac:(lia)) as Hdm.
  apply (Z.div_unique _ 256 _ (to mod 256 + l - 1)); lia.
Qed.

(** The loop, one iteration at a time. *)
Lemma write_loop_done fuel nor write_len to write_buf data_left b :
  data_left <= 0 ->
  at25sf041_write_loop fuel nor write_len to write_buf data_left b
  = (Some (to_ssize_t write_len), [], b).
Proof.
  intros H. destruct fuel; simpl;
    destruct (Z.ltb_spec 0 data_left); try lia; reflexivity.
Qed.

Lemma write_loop_out_of_fuel nor write_len to write_buf data_left b :
  0 < data_left ->
  at25sf041_write_loop O nor write_len to write_buf data_left b
  = (None, [], b).
Proof.
  intros H. simpl. destruct (Z.ltb_spec 0 data_left); try lia; reflexivity.
Qed.

Lemma write_loop_step fuel nor write_len to write_buf data_left b :
  0 < data_left ->
  at25sf041_write_loop (S fuel) nor write_len to write_buf data_left b
  = let page := at25sf041_write_chunk to write_buf data_left in
    let '(r, e1, b1) := at25sf041_write_page nor page b in
    if 0 >? r then (Some r, e1, b1)
    else if negb (len page =? to_size_t r) then (Some (- EIO), e1, b1)
    else
      let '(res, e2, b2) :=
        at25sf041_write_loop fuel nor write_len (to_loff_t (to + len page))
          (drop (len page) write_buf) (to_size_t (data_left - len page)) b1 in
      (res, e1 ++ e2, b2).
Proof.
  intros H. cbn [at25sf041_write_loop].
  destruct (Z.ltb_spec 0 data_left); try lia.
  unfold bind. cbv zeta.
  destruct (at25sf041_write_page nor _ b) as [[r e1] b1].
  destruct (0 >? r); [cbn [ret]; rewrite app_nil_r; reflexivity|].
  destruct (negb _); [cbn [ret]; rewrite app_nil_r; reflexivity|].
  reflexivity.
Qed.

(** Where a recorded page-program call can sit in a run that starts with
    one: it is that first call, or it comes after it. *)
Lemma page_call_split e0 pg r1 rest pre page r post :
  page_calls e0 = [] ->
  e0 ++ EvWritePage pg r1 :: rest = pre ++ EvWritePage page r :: post ->
  (pre = e0 /\ page = pg /\ r = r1 /\ post = rest) \/
  (exists pre',
     pre = e0 ++ EvWritePage pg r1 :: pre' /\
     rest = pre' ++ EvWritePage page r :: post).
Proof.
  revert pre. induction e0 as [|a e0 IH]; intros pre Hnone Heq.
  - destruct pre as [|x pre]; simpl in Heq.
    + injection Heq as -> -> ->. left. auto.
    + injection Heq as <- ->. right. exists pre. auto.
  - destruct pre as [|x pre]; simpl in Heq.
    + injection Heq as -> _. discriminate Hnone.
    + injection Heq as <- Heq.
      assert (Hnone' : page_calls e0 = [])
        by (destruct a; [assumption|discriminate|assumption]).
      destruct (IH pre Hnone' Heq) as [(-> & -> & -> & ->)|(pre' & -> & ->)].
      * left. auto.
      * right. exists pre'. auto.
Qed.

Lemma write_loop_within_one_page fuel :
  forall nor write_len to write_buf data_left b,
    Forall (fun call => within_one_page (fst call))
      (page_calls (events_of
         (at25sf041_write_loop fuel nor write_len to write_buf data_left b))).
Proof.
  induction fuel as [|fuel IH]; intros nor write_len to write_buf data_left b;
    destruct (Z.ltb_spec 0 data_left) as [Hpos|Hneg];
    try (rewrite write_loop_done by lia; constructor).
  - rewrite write_loop_out_of_fuel by lia. constructor.
  - rewrite write_loop_step by lia. cbv zeta.
    destruct (write_chunk_spec to write_buf data_left Hpos)
      as (_ & _ & _ & _ & Hpage).
    set (page := at25sf041_write_chunk to write_buf data_left) in *.
    destruct (write_page_run nor page b) as (r & e0 & b1 & -> & Hnone & _).
    assert (Hfirst : forall e2,
      Forall (fun call => within_one_page (fst call)) (page_calls e2) ->
      Forall (fun call => within_one_page (fst call))
        (page_calls ((e0 ++ [EvWritePage page r]) ++ e2))).
    { intros e2 H2. rewrite !page_calls_app, Hnone. simpl.
      constructor; assumption. }
    destruct (0 >? r).
    { unfold events_of. cbn [fst snd].
      rewrite <- (app_nil_r (e0 ++ _)). apply Hfirst. constructor. }
    destruct (negb _).
    { unfold events_of. cbn [fst snd].
      rewrite <- (app_nil_r (e0 ++ _)). apply Hfirst. constructor. }
    specialize (IH nor write_len (to_loff_t (to + len page))
                  (drop (len page) write_buf)
                  (to_size_t (data_left - len page)) b1).
    destruct (at25sf041_write_loop fuel _ _ _ _ _ b1) as [[res e2] b2].
    unfold events_of in *. cbn [fst snd] in *. apply Hfirst, IH.
Qed.

(** C2.  Whatever the destination, the length and the buffer, and however
    the bus behaves, no page-program call issued by [at25sf041_write]
    crosses a multiple of the page size: each call is at least one byte
    long, and its first and last byte lie in the same 256-byte page. *)
Theorem write_never_crosses_page fuel nor to n write_buf b :
  Forall (fun call => within_one_page (fst call))
    (page_calls (events_of (at25sf041_write fuel nor to n write_buf b))).
Proof. unfold at25sf041_write. apply write_loop_within_one_page. Qed.

Lemma write_loop_aborts fuel :
  forall nor write_len to write_buf data_left b pre page r post,
    events_of (at25sf041_write_loop fuel nor write_len to write_buf
                 data_left b)
    = pre ++ EvWritePage page r :: post ->
    (0 <= r -> r <> len page ->
     result_of (at25sf041_write_loop fuel nor write_len to write_buf
                  data_left b) = Some (- EIO) /\ post = []) /\
    (r < 0 ->
     result_of (at25sf041_write_loop fuel nor write_len to write_buf
                  data_left b) = Some r /\ post = []).
Proof.
  induction fuel as [|fuel IH];
    intros nor write_len to write_buf data_left b pre page r post;
    destruct (Z.ltb_spec 0 data_left) as [Hpos|Hneg];
    try (rewrite write_loop_done by lia; intros H;
         now destruct pre; discriminate H).
  - rewrite write_loop_out_of_fuel by lia. intros H.
    now destruct pre; discriminate H.
  - rewrite write_loop_step by lia. cbv zeta.
    destruct (write_chunk_spec to write_buf data_left Hpos)
      as (_ & _ & _ & Hlen & _).
    set (pg := at25sf041_write_chunk to write_buf data_left) in *.
    destruct (write_page_run nor pg b) as (r1 & e0 & b1 & -> & Hnone & Hr1).
    destruct (Z.gtb_spec 0 r1) as [Hneg|Hnonneg].
    { unfold events_of, result_of. cbn [fst snd]. intros Heq.
      destruct (page_call_split _ _ _ _ _ _ _ _ Hnone Heq)
        as [(-> & -> & -> & ->)|(pre' & _ & Hpost)].
      - split; [lia|auto].
      - now destruct pre'; discriminate Hpost. }
    rewrite (to_size_t_id r1) by (unfold SIZE_MAX, SSIZE_MAX in *; lia).
    destruct (Z.eqb_spec (len pg) r1) as [Hsame|Hdiff]; cbn [negb].
    + specialize (IH nor write_len (to_loff_t (to + len pg))
                    (drop (len pg) write_buf)
                    (to_size_t (data_left - len pg)) b1).
      destruct (at25sf041_write_loop fuel _ _ _ _ _ b1) as [[res e2] b2].
      unfold events_of, result_of in *. cbn [fst snd] in *.
      rewrite <- app_assoc. cbn [app]. intros Heq.
      destruct (page_call_split _ _ _ _ _ _ _ _ Hnone Heq)
        as [(-> & -> & -> & ->)|(pre' & _ & Hpost)].
      * split; intros; lia.
      * apply (IH _ _ _ _ Hpost).
    + unfold events_of, result_of. cbn [fst snd]. intros Heq.
      destruct (page_call_split _ _ _ _ _ _ _ _ Hnone Heq)
        as [(-> & -> & -> & ->)|(pre' & _ & Hpost)].
      * split; [auto|lia].
      * now destruct pre'; discriminate Hpost.
Qed.

(** C3.  Take any page-program call that [at25sf041_write] issued, and the
    value [r] it returned.  If [r] is not negative and differs from the
    length the call was asked to write, [at25sf041_write] returns [-EIO]
    and that call is the last thing it did; if [r] is negative, it returns
    [r] unchanged and that call is the last thing it did. *)
Theorem write_aborts_on_failed_page
  fuel nor to n write_buf b pre page r post :
  events_of (at25sf041_write fuel nor to n write_buf b)
  = pre ++ EvWritePage page r :: post ->
  (0 <= r -> r <> len page ->
   result_of (at25sf041_write fuel nor to n write_buf b) = Some (- EIO) /\
   post = []) /\
  (r < 0 ->
   result_of (at25sf041_write fuel nor to n write_buf b) = Some r /\
   post = []).
Proof. unfold at25sf041_write. apply write_loop_aborts. Qed.

(** The loop returns: every iteration either leaves the loop or takes at
    least one byte off [data_left], so [data_left] iterations are enough,
    however the bus behaves. *)
Lemma write_loop_returns fuel :
  forall nor write_len to write_buf data_left b,
    0 <= data_left <= SIZE_MAX ->
    (Z.to_nat data_left <= fuel)%nat ->
    result_of (at25sf041_write_loop fuel nor write_len to write_buf
                 data_left b) <> None.
Proof.
  induction fuel as [|fuel IH];
    intros nor write_len to write_buf data_left b Hrange Hfuel;
    destruct (Z.ltb_spec 0 data_left) as [Hpos|Hneg];
    try (rewrite write_loop_done by lia; discriminate); try lia.
  rewrite write_loop_step by lia. cbv zeta.
  destruct (write_chunk_spec to write_buf data_left Hpos)
    as (_ & _ & _ & Hlen & _).
  set (page := at25sf041_write_chunk to write_buf data_left) in *.
  destruct (at25sf041_write_page nor page b) as [[r e1] b1].
  destruct (0 >? r); [discriminate|].
  destruct (negb _); [discriminate|].
  assert (Hleft : to_size_t (data_left - len page) = data_left - len page)
    by (apply to_size_t_id; lia).
  specialize (IH nor write_len (to_loff_t (to + len page))
                (drop (len page) write_buf)
                (to_size_t (data_left - len page)) b1).
  rewrite Hleft in *.
  destruct (at25sf041_write_loop fuel _ _ _ _ _ b1) as [[res e2] b2].
  unfold result_of in *. cbn [fst snd] in *. apply IH; lia.
Qed.

Lemma write_returns fuel nor to n write_buf b :
  (Z.to_nat (at25sf041_write_len nor to n) <= fuel)%nat ->
  result_of (at25sf041_write fuel nor to n write_buf b) <> None.
Proof.
  intros Hfuel. unfold at25sf041_write. apply write_loop_returns.
  - apply to_size_t_range.
  - assumption.
Qed.

Lemma write_loop_completes fuel :
  forall nor write_len to write_buf data_left b,
    0 <= data_left <= SIZE_MAX ->
    (Z.to_nat data_left <= fuel)%nat ->
    Forall wrote_all
      (page_calls (events_of
         (at25sf041_write_loop fuel nor write_len to write_buf
            data_left b))) ->
    result_of (at25sf041_write_loop fuel nor write_len to write_buf
                 data_left b) = Some (to_ssize_t write_len) /\
    Forall (fun call => 1 <= len (fst call))
      (page_calls (events_of
         (at25sf041_write_loop fuel nor write_len to write_buf
            data_left b))) /\
    total_length
      (page_calls (events_of
         (at25sf041_write_loop fuel nor write_len to write_buf
            data_left b))) = data_left.
Proof.
  induction fuel as [|fuel IH];
    intros nor write_len to write_buf data_left b Hrange Hfuel;
    destruct (Z.ltb_spec 0 data_left) as [Hpos|Hneg];
    try (rewrite write_loop_done by lia; intros _;
         unfold result_of, events_of; cbn;
         repeat split; [constructor|lia]);
    try lia.
  rewrite write_loop_step by lia. cbv zeta.
  destruct (write_chunk_spec to write_buf data_left Hpos)
    as (_ & _ & _ & Hlen & _).
  set (page := at25sf041_write_chunk to write_buf data_left) in *.
  destruct (write_page_run nor page b) as (r & e0 & b1 & -> & Hnone & Hr).
  assert (Hleft : to_size_t (data_left - len page) = data_left - len page)
    by (apply to_size_t_id; lia).
  specialize (IH nor write_len (to_loff_t (to + len page))
                (drop (len page) write_buf)
                (to_size_t (data_left - len page)) b1).
  rewrite Hleft in *.
  destruct (at25sf041_write_loop fuel _ _ _ _ _ b1) as [[res e2] b2].
  assert (Hr0 : forall e2,
    Forall wrote_all (page_calls ((e0 ++ [EvWritePage page r]) ++ e2)) ->
    r = len page /\ Forall wrote_all (page_calls e2)).
  { intros e Hall. rewrite !page_calls_app, Hnone in Hall. simpl in Hall.
    inversion Hall; subst. auto. }
  destruct (Z.gtb_spec 0 r) as [Hneg|Hnonneg].
  { unfold events_of. cbn [fst snd]. intros Hall.
    rewrite <- (app_nil_r (e0 ++ _)) in Hall.
    apply Hr0 in Hall. lia. }
  rewrite (to_size_t_id r) by (unfold SIZE_MAX, SSIZE_MAX in *; lia).
  destruct (Z.eqb_spec (len page) r) as [Hsame|Hdiff]; cbn [negb].
  - unfold events_of, result_of in *. cbn [fst snd] in *. intros Hall.
    apply Hr0 in Hall. destruct Hall as [_ Hall].
    destruct IH as (Hres & Hpos' & Hsum); [lia|lia|assumption|].
    rewrite !page_calls_app, Hnone. unfold total_length in *.
    cbn [page_calls app fold_right fst].
    repeat split; [assumption|constructor; [cbn [fst]; lia|assumption]|lia].
  - unfold events_of. cbn [fst snd]. intros Hall.
    rewrite <- (app_nil_r (e0 ++ _)) in Hall.
    apply Hr0 in Hall. lia.
Qed.

(** C10.  When every page-program call returns the length it was asked to
    write, the loop of [at25sf041_write] comes to its end.  The chunk of an
    iteration is [min(256 - to mod 256, data_left)] bytes, at least 1 and
    at most [data_left] whenever [data_left >= 1]; so with room for
    [write_len] iterations the loop returns [write_len], every chunk it
    wrote is at least one byte long, and the chunks add up to [write_len]
    exactly: [data_left] has reached zero. *)
Theorem write_loop_terminates fuel nor to n write_buf b :
  let write_len := at25sf041_write_len nor to n in
  let run := at25sf041_write fuel nor to n write_buf b in
  (Z.to_nat write_len <= fuel)%nat ->
  Forall wrote_all (page_calls (events_of run)) ->
  (forall cursor buf data_left,
     1 <= data_left ->
     len (at25sf041_write_chunk cursor buf data_left)
     = Z.min (AT25SF041_PAGE_SIZE - cursor mod AT25SF041_PAGE_SIZE)
         data_left /\
     1 <= len (at25sf041_write_chunk cursor buf data_left) <= data_left) /\
  result_of run = Some (to_ssize_t write_len) /\
  Forall (fun call => 1 <= len (fst call)) (page_calls (events_of run)) /\
  total_length (page_calls (events_of run)) = write_len.
Proof.
  intros write_len run Hfuel Hall. split.
  - intros cursor buf data_left Hleft.
    destruct (write_chunk_spec cursor buf data_left ltac:(lia))
      as (_ & _ & Hmin & Hlen & _).
    split; assumption.
  - unfold run, at25sf041_write in *.
    apply write_loop_completes; try assumption.
    apply to_size_t_range.
Qed.

(** C9.  A write of 10 bytes at 253 on a device that holds them, with every
    page-program call returning the length it was asked to write: two
    calls, 3 bytes at 253 and then 7 bytes at 256, each with its part of
    the buffer, and the write returns 10. *)
Theorem write_253_10 fuel nor write_buf b :
  let run := at25sf041_write fuel nor 253 10 write_buf b in
  (2 <= fuel)%nat ->
  263 <= mtd_size nor < 2 ^ 63 ->
  Forall wrote_all (page_calls (events_of run)) ->
  result_of run = Some 10 /\
  map fst (page_calls (events_of run))
  = [ {| spi_addr_start := 253; buffer_start := write_buf; len := 3 |};
      {| spi_addr_start := 256; buffer_start := drop 3 write_buf;
         len := 7 |} ].
Proof.
  intros run Hfuel Hsize. subst run. unfold at25sf041_write.
  assert (Hlen : at25sf041_write_len nor 253 10 = 10).
  { unfold at25sf041_write_len, min_loff_t.
    rewrite (to_loff_t_id (mtd_size nor)) by lia.
    change (to_loff_t (253 + 10)) with 263.
    destruct (Z.ltb_spec (mtd_size nor) 263); [lia|reflexivity]. }
  rewrite Hlen.
  destruct fuel as [|[|fuel]]; try lia.
  set (p1 := {| spi_addr_start := 253; buffer_start := write_buf;
                len := 3 |}).
  set (p2 := {| spi_addr_start := 256; buffer_start := drop 3 write_buf;
                len := 7 |}).
  rewrite write_loop_step by lia. cbv zeta.
  change (at25sf041_write_chunk 253 write_buf 10) with p1.
  destruct (write_page_run nor p1 b) as (r1 & e1 & b1 & -> & Hnone1 & _).
  change (len p1) with 3.
  change (to_loff_t (253 + 3)) with 256. change (to_size_t (10 - 3)) with 7.
  rewrite write_loop_step by lia. cbv zeta.
  change (at25sf041_write_chunk 256 (drop 3 write_buf) 7) with p2.
  destruct (write_page_run nor p2 b1) as (r2 & e2 & b2 & -> & Hnone2 & _).
  change (len p2) with 7.
  change (to_size_t (7 - 7)) with 0.
  rewrite write_loop_done by lia.
  assert (H1 : forall rest,
    Forall wrote_all (page_calls ((e1 ++ [EvWritePage p1 r1]) ++ rest)) ->
    r1 = 3 /\ Forall wrote_all (page_calls rest)).
  { intros rest Hall. rewrite !page_calls_app, Hnone1 in Hall.
    simpl in Hall. inversion Hall; subst. auto. }
  assert (H2 : forall rest,
    Forall wrote_all (page_calls ((e2 ++ [EvWritePage p2 r2]) ++ rest)) ->
    r2 = 7 /\ Forall wrote_all (page_calls rest)).
  { intros rest Hall. rewrite !page_calls_app, Hnone2 in Hall.
    simpl in Hall. inversion Hall; subst. auto. }
  destruct (Z.gtb_spec 0 r1).
  { unfold events_of. cbn [fst snd]. intros Hall.
    rewrite <- (app_nil_r (e1 ++ _)) in Hall. apply H1 in Hall. lia. }
  destruct (Z.eqb_spec 3 (to_size_t r1)) as [E1|E1]; cbn [negb].
  2:{ unfold events_of. cbn [fst snd]. intros Hall.
      rewrite <- (app_nil_r (e1 ++ _)) in Hall. apply H1 in Hall.
      destruct Hall as [-> _]. now elim E1. }
  destruct (Z.gtb_spec 0 r2).
  { unfold events_of. cbn [fst snd]. intros Hall.
    rewrite <- (app_nil_r (e2 ++ _)) in Hall.
    apply H1 in Hall. destruct Hall as [_ Hall]. apply H2 in Hall. lia. }
  destruct (Z.eqb_spec 7 (to_size_t r2)) as [E2|E2]; cbn [negb].
  2:{ unfold events_of. cbn [fst snd]. intros Hall.
      rewrite <- (app_nil_r (e2 ++ _)) in Hall.
      apply H1 in Hall. destruct Hall as [_ Hall]. apply H2 in Hall.
      destruct Hall as [-> _]. now elim E2. }
  unfold events_of, result_of. cbn [fst snd]. intros _.
  rewrite !page_calls_app, Hnone1, Hnone2. split; reflexivity.
Qed.

(** * Further properties of the driver *)

(** ** The connection probe *)

(** A failed probe transaction is the probe's result, whatever was
    received. *)
Theorem test_con_transport_error b r rxs evs b' :
  spi_sync at25sf041_test_con_message b = ((r, rxs), evs, b') ->
  r <> 0 ->
  at25sf041_test_con b = (r, evs, b').
Proof.
  intros Hsync Hr. unfold at25sf041_test_con, bind. rewrite Hsync.
  destruct (Z.eqb_spec 0 r) as [E|_]; [congruence|].
  cbn [negb ret]. rewrite app_nil_r. reflexivity.
Qed.

(** The probe passes exactly when its transaction succeeded, the status is
    not 0xFF, and either a write is in progress or the identity is that of
    the AT25SF041.  When it does not pass, its result is the status of the
    transaction or [-EIO]. *)
Theorem test_con_connected_iff b r status id0 id1 id2 evs b' :
  spi_sync at25sf041_test_con_message b
  = ((r, [[status]; [id0; id1; id2]]), evs, b') ->
  (result_of (at25sf041_test_con b) = 0 <->
   r = 0 /\ status <> 0xFF /\
   (Z.land status SR_WIP <> 0 \/
    (id0, id1, id2)
    = (AT25SF041_MAN_ID, AT25SF041_DEV_ID1, AT25SF041_DEV_ID2))) /\
  (result_of (at25sf041_test_con b) <> 0 ->
   result_of (at25sf041_test_con b) = r \/
   result_of (at25sf041_test_con b) = - EIO).
Proof.
  intros Hsync. unfold at25sf041_test_con, bind, result_of. rewrite Hsync.
  cbn [rx_byte nth].
  unfold AT25SF041_MAN_ID, AT25SF041_DEV_ID1, AT25SF041_DEV_ID2, EIO.
  destruct (Z.eqb_spec 0 r) as [<-|Hr]; cbn [negb ret fst snd].
  2:{ split; [|auto]. split; [congruence|]. intros [E _]. congruence. }
  destruct (Z.eqb_spec 255 status) as [<-|Hff]; cbn [ret fst snd].
  { split; [|auto]. split; [discriminate|]. intros (_ & H & _). now elim H. }
  destruct (Z.eqb_spec (Z.land status SR_WIP) 0) as [Hwip|Hwip].
  2:{ cbn [ret fst snd]. split; [|intros H; now elim H].
      split; auto. }
  destruct (Z.eqb_spec 31 id0) as [<-|H0]; cbn [negb orb].
  2:{ cbn [ret fst snd]. split; [|auto]. split; [discriminate|].
      intros (_ & _ & [H|H]); congruence. }
  destruct (Z.eqb_spec 132 id1) as [<-|H1]; cbn [negb orb].
  2:{ cbn [ret fst snd]. split; [|auto]. split; [discriminate|].
      intros (_ & _ & [H|H]); congruence. }
  destruct (Z.eqb_spec 1 id2) as [<-|H2]; cbn [negb orb].
  2:{ cbn [ret fst snd]. split; [|auto]. split; [discriminate|].
      intros (_ & _ & [H|H]); congruence. }
  cbn [ret fst snd]. split; [|intros H; now elim H].
  split; auto.
Qed.

(** ** Register access *)

Lemma register_access_run nor opcode buf n b e1 b1 :
  at25sf041_test_con b = (0, e1, b1) ->
  let rd := at25sf041_read_reg nor opcode buf n b in
  let wr := at25sf041_write_reg nor opcode buf n b in
  let xr := spi_sync (at25sf041_read_reg_message opcode buf n) b1 in
  let xw := spi_sync (at25sf041_write_reg_message opcode buf n) b1 in
  (fst (result_of rd) = fst (result_of xr) /\
   events_of rd = e1 ++ events_of xr /\ bus_of rd = bus_of xr) /\
  (result_of wr = fst (result_of xw) /\
   events_of wr = e1 ++ events_of xw /\ bus_of wr = bus_of xw).
Proof.
  intros Hprobe. cbv zeta.
  unfold at25sf041_read_reg, at25sf041_write_reg, bind. rewrite Hprobe.
  change (0 =? 0) with true. cbn [negb].
  unfold result_of, events_of, bus_of. split.
  - destruct (spi_sync _ b1) as [[[r rxs] e2] b2].
    destruct (Z.eqb_spec 0 r) as [<-|Hr]; cbn [negb ret fst snd];
      rewrite app_nil_r; auto.
  - destruct (spi_sync _ b1) as [[[r rxs] e2] b2].
    destruct (Z.eqb_spec 0 r) as [<-|Hr]; cbn [negb ret fst snd];
      rewrite app_nil_r; auto.
Qed.

(** Once the probe has passed, the status of a register call is the status
    of its register transaction, which is run from the state the probe left
    the bus in and is the only thing the call adds. *)
Theorem register_access_after_probe nor opcode buf n b e1 b1 :
  at25sf041_test_con b = (0, e1, b1) ->
  let rd := at25sf041_read_reg nor opcode buf n b in
  let wr := at25sf041_write_reg nor opcode buf n b in
  let xr := spi_sync (at25sf041_read_reg_message opcode buf n) b1 in
  let xw := spi_sync (at25sf041_write_reg_message opcode buf n) b1 in
  (fst (result_of rd) = fst (result_of xr) /\
   events_of rd = e1 ++ events_of xr /\ bus_of rd = bus_of xr) /\
  (result_of wr = fst (result_of xw) /\
   events_of wr = e1 ++ events_of xw /\ bus_of wr = bus_of xw).
Proof. apply register_access_run. Qed.

(** A register call without payload ([len <= 0]) is an opcode-only command:
    its register transaction is the single transfer that sends the opcode,
    and a read leaves the buffer as it was. *)
Theorem register_access_opcode_only nor opcode buf n b e1 b1 :
  n <= 0 ->
  at25sf041_test_con b = (0, e1, b1) ->
  let command := [ {| tx_buf := Some [opcode]; rx_buf := None;
                      xfer_len := 1; cs_change := false |} ] in
  let rd := at25sf041_read_reg nor opcode buf n b in
  let wr := at25sf041_write_reg nor opcode buf n b in
  snd (result_of rd) = buf /\
  syncs (events_of rd) = syncs e1 ++ [command] /\
  syncs (events_of wr) = syncs e1 ++ [command].
Proof.
  intros Hn Hprobe. cbv zeta.
  destruct (register_access_run nor opcode buf n b e1 b1 Hprobe)
    as [(_ & Hrd & _) (_ & Hwr & _)].
  rewrite Hrd, Hwr, !syncs_app. clear Hrd Hwr.
  unfold at25sf041_read_reg, bind, result_of. rewrite Hprobe.
  change (0 =? 0) with true. cbn [negb].
  unfold at25sf041_read_reg_message, at25sf041_write_reg_message.
  destruct (Z.ltb_spec 0 n) as [H|_]; [lia|].
  destruct (spi_sync_run
              [ {| tx_buf := Some [opcode]; rx_buf := None;
                   xfer_len := 1; cs_change := false |} ] b1)
    as (r & rxs & b2 & -> & _).
  unfold events_of. cbn [fst snd syncs].
  destruct (negb (0 =? r)); repeat split.
Qed.

(** ** Linear read *)

(** A read on a link the probe rejects returns the probe's error, leaves
    the buffer as it was and puts nothing on the bus after the probe. *)
Theorem read_probe_failure nor from n read_buf b :
  let probe := at25sf041_test_con b in
  let rd := at25sf041_read nor from n read_buf b in
  result_of probe <> 0 ->
  result_of rd = (result_of probe, read_buf) /\
  syncs (events_of rd) = [at25sf041_test_con_message] /\
  bus_of rd = bus_of probe.
Proof.
  cbv zeta. unfold at25sf041_read, bind.
  destruct (test_con_run b) as (r & r0 & b1 & -> & Hr).
  unfold result_of, events_of, bus_of. cbn [fst snd]. intros Hfail.
  destruct (Z.eqb_spec 0 r) as [E|_]; [congruence|].
  cbn [negb]. rewrite to_ssize_t_id by assumption.
  repeat split.
Qed.

(** The clamp of the read path for a request that starts inside the
    device or at its end. *)
Lemma read_len_min nor from n :
  0 <= mtd_size nor <= SSIZE_MAX ->
  0 <= from <= mtd_size nor ->
  0 <= n <= SIZE_MAX ->
  at25sf041_read_len nor from n = Z.min n (mtd_size nor - from).
Proof.
  unfold SSIZE_MAX, SIZE_MAX. intros Hsize Hfrom Hn.
  unfold at25sf041_read_len, min_loff_t.
  rewrite (to_loff_t_id (mtd_size nor)) by lia.
  rewrite (to_loff_t_id (from + n)) by lia.
  destruct (Z.ltb_spec (mtd_size nor) (from + n)).
  - rewrite to_loff_t_id by lia.
    rewrite to_size_t_id by (unfold SIZE_MAX; lia). lia.
  - rewrite to_loff_t_id by lia.
    rewrite to_size_t_id by (unfold SIZE_MAX; lia). lia.
Qed.

(** A read that starts inside the device returns the smaller of the length
    asked for and the distance to the end of the device, and that is the
    length of the data transfer it puts on the bus: a request that fits is
    read in full. *)
Theorem read_returns_min nor from n read_buf b e1 b1 rxs e2 b2 :
  0 <= mtd_size nor <= SSIZE_MAX ->
  0 <= from <= mtd_size nor ->
  0 <= n <= SIZE_MAX ->
  at25sf041_test_con b = (0, e1, b1) ->
  spi_sync (at25sf041_read_message from (Z.min n (mtd_size nor - from))
              read_buf) b1
  = ((0, rxs), e2, b2) ->
  at25sf041_read nor from n read_buf b
  = ((Z.min n (mtd_size nor - from), nth 0 rxs read_buf), e1 ++ e2, b2).
Proof.
  intros Hsize Hfrom Hn Hprobe Hsync.
  rewrite <- (read_len_min nor from n Hsize Hfrom Hn) in *.
  rewrite (read_after_probe _ _ _ _ _ _ _ _ _ _ _ Hprobe Hsync).
  change (0 =? 0) with true. cbn [negb].
  rewrite to_ssize_t_id; [reflexivity|].
  rewrite (read_len_min nor from n Hsize Hfrom Hn). lia.
Qed.

(** A failed read transaction is the result of the read. *)
Theorem read_transport_error nor from n read_buf b e1 b1 r rxs e2 b2 :
  at25sf041_test_con b = (0, e1, b1) ->
  spi_sync (at25sf041_read_message from (at25sf041_read_len nor from n)
              read_buf) b1
  = ((r, rxs), e2, b2) ->
  r <> 0 ->
  at25sf041_read nor from n read_buf b
  = ((r, nth 0 rxs read_buf), e1 ++ e2, b2).
Proof.
  intros Hprobe Hsync Hr.
  rewrite (read_after_probe _ _ _ _ _ _ _ _ _ _ _ Hprobe Hsync).
  destruct (Z.eqb_spec 0 r) as [E|_]; [congruence|]. cbn [negb].
  destruct (spi_sync_run
              (at25sf041_read_message from (at25sf041_read_len nor from n)
                 read_buf) b1) as (r' & rxs' & b2' & Hrun & Hrange).
  rewrite Hsync in Hrun. injection Hrun as <- _ _ _.
  rewrite to_ssize_t_id by assumption. reflexivity.
Qed.

(** The driver does not reject a read that starts past the end of the
    device: the clamped length wraps around as a [size_t], the data
    transfer is that long, and on success the value returned is the
    negative number [capacity - from]. *)
Theorem read_past_capacity nor from n read_buf b e1 b1 rxs e2 b2 :
  0 <= mtd_size nor <= SSIZE_MAX ->
  mtd_size nor < from <= mtd_size nor + 2 ^ 31 ->
  0 <= n <= SIZE_MAX ->
  at25sf041_test_con b = (0, e1, b1) ->
  spi_sync (at25sf041_read_message from (2 ^ 32 - (from - mtd_size nor))
              read_buf) b1
  = ((0, rxs), e2, b2) ->
  at25sf041_read nor from n read_buf b
  = ((mtd_size nor - from, nth 0 rxs read_buf), e1 ++ e2, b2).
Proof.
  unfold SSIZE_MAX, SIZE_MAX. intros Hsize Hfrom Hn Hprobe Hsync.
  assert (Hlen : at25sf041_read_len nor from n
                 = 2 ^ 32 - (from - mtd_size nor)).
  { unfold at25sf041_read_len, min_loff_t.
    rewrite (to_loff_t_id (mtd_size nor)) by lia.
    rewrite (to_loff_t_id (from + n)) by lia.
    destruct (Z.ltb_spec (mtd_size nor) (from + n)); [|lia].
    rewrite to_loff_t_id by lia.
    unfold to_size_t, wrap_unsigned.
    symmetry. apply (Z.mod_unique _ _ (-1)); lia. }
  rewrite <- Hlen in Hsync.
  rewrite (read_after_probe _ _ _ _ _ _ _ _ _ _ _ Hprobe Hsync).
  change (0 =? 0) with true. cbn [negb]. rewrite Hlen.
  unfold to_ssize_t, wrap_signed. change (32 - 1) with 31.
  replace ((2 ^ 32 - (from - mtd_size nor) + 2 ^ 31) mod 2 ^ 32)
    with (mtd_size nor - from + 2 ^ 31)
    by (apply (Z.mod_unique _ _ 1); lia).
  f_equal. f_equal. f_equal. lia.
Qed.

(** The three address bytes of a command, read most significant first,
    are the low 24 bits of the address. *)
Lemma address_bytes x :
  to_u8 (Z.land (Z.shiftr x 16) 0xFF) * 65536
  + to_u8 (Z.land (Z.shiftr x 8) 0xFF) * 256
  + to_u8 (Z.land x 0xFF)
  = x mod 2 ^ 24.
Proof.
  rewrite !land_255, !Z.shiftr_div_pow2 by lia.
  unfold to_u8, wrap_unsigned. change (2 ^ 8) with 256.
  rewrite !Z.mod_mod by lia.
  change (2 ^ 16) with (256 * 256).
  rewrite <- Z.div_div by lia.
  pose proof (Z.div_mod x 256 ltac:(lia)) as H0.
  pose proof (Z.div_mod (x / 256) 256 ltac:(lia)) as H1.
  pose proof (Z.div_mod (x / 256 / 256) 256 ltac:(lia)) as H2.
  pose proof (Z.mod_pos_bound x 256 ltac:(lia)).
  pose proof (Z.mod_pos_bound (x / 256) 256 ltac:(lia)).
  pose proof (Z.mod_pos_bound (x / 256 / 256) 256 ltac:(lia)).
  apply (Z.mod_unique _ _ (x / 256 / 256 / 256)); lia.
Qed.

(** The read command carries the low 24 bits of [from], most significant
    byte first: every address of a device of up to 16 MiB arrives as it
    is. *)
Theorem read_command_address from read_len read_buf :
  command_address (at25sf041_read_message from read_len read_buf)
  = Some (from mod 2 ^ 24) /\
  (0 <= from < 2 ^ 24 ->
   command_address (at25sf041_read_message from read_len read_buf)
   = Some from).
Proof.
  assert (H : command_address (at25sf041_read_message from read_len read_buf)
              = Some (from mod 2 ^ 24)).
  { unfold at25sf041_read_message, command_address. cbn [tx_buf].
    rewrite address_bytes. reflexivity. }
  split; [exact H|]. intros Hrange. rewrite H, Z.mod_small by lia.
  reflexivity.
Qed.

(** ** Page program *)

(** The page-program command carries the low 24 bits of the page's start
    address, most significant byte first. *)
Theorem write_page_command_address page :
  command_address (at25sf041_write_page_message page)
  = Some (spi_addr_start page mod 2 ^ 24) /\
  (0 <= spi_addr_start page < 2 ^ 24 ->
   command_address (at25sf041_write_page_message page)
   = Some (spi_addr_start page)).
Proof.
  assert (H : command_address (at25sf041_write_page_message page)
              = Some (spi_addr_start page mod 2 ^ 24)).
  { unfold at25sf041_write_page_message, command_address. cbn [tx_buf].
    rewrite address_bytes. reflexivity. }
  split; [exact H|]. intros Hrange. rewrite H, Z.mod_small by lia.
  reflexivity.
Qed.

(** A page program on a link the probe rejects returns the probe's error
    and puts nothing on the bus after the probe. *)
Theorem write_page_probe_failure nor page b :
  let probe := at25sf041_test_con b in
  let wp := at25sf041_write_page nor page b in
  result_of probe <> 0 ->
  result_of wp = result_of probe /\
  syncs (events_of wp) = [at25sf041_test_con_message] /\
  bus_of wp = bus_of probe.
Proof.
  cbv zeta. unfold at25sf041_write_page, at25sf041_write_page_body, bind.
  destruct (test_con_run b) as (r & r0 & b1 & -> & Hr).
  unfold result_of, events_of, bus_of. cbn [fst snd]. intros Hfail.
  rewrite to_ssize_t_id by assumption.
  destruct (Z.eqb_spec 0 r) as [E|_]; [congruence|].
  cbn [negb]. repeat split.
Qed.

(** Once the probe has passed, a page program is one more transaction: the
    command with the page's bytes.  It returns the length of the page when
    that transaction succeeds and the status of the transaction when it
    does not. *)
Theorem write_page_after_probe nor page b e1 b1 r rxs e2 b2 :
  0 <= len page <= SSIZE_MAX ->
  at25sf041_test_con b = (0, e1, b1) ->
  spi_sync (at25sf041_write_page_message page) b1 = ((r, rxs), e2, b2) ->
  let result := if r =? 0 then len page else r in
  at25sf041_write_page nor page b
  = (result, e1 ++ e2 ++ [EvWritePage page result], b2).
Proof.
  intros Hlen Hprobe Hsync. cbv zeta.
  unfold at25sf041_write_page, at25sf041_write_page_body, bind.
  rewrite Hprobe. change (to_ssize_t 0) with 0.
  change (0 =? 0) with true. cbn [negb].
  rewrite Hsync.
  destruct (spi_sync_run (at25sf041_write_page_message page) b1)
    as (r' & rxs' & b2' & Hrun & Hrange).
  rewrite Hsync in Hrun. injection Hrun as <- _ _ _.
  rewrite (to_ssize_t_id r) by assumption.
  rewrite (Z.eqb_sym r 0).
  destruct (Z.eqb_spec 0 r) as [<-|Hr]; cbn [negb ret emit].
  - rewrite to_ssize_t_id by (unfold SSIZE_MAX in *; lia).
    rewrite !app_nil_r. cbn [app]. rewrite <- app_assoc. reflexivity.
  - rewrite !app_nil_r. cbn [app]. rewrite <- app_assoc. reflexivity.
Qed.

(** ** The splitting write *)

(** The clamp of the write path for a request that starts inside the
    device or at its end. *)
Lemma write_len_min nor to n :
  0 <= mtd_size nor <= SSIZE_MAX ->
  0 <= to <= mtd_size nor ->
  0 <= n <= SIZE_MAX ->
  at25sf041_write_len nor to n = Z.min n (mtd_size nor - to).
Proof. apply read_len_min. Qed.

(** A write of no bytes, or a write at the very end of the device, returns
    0 at once: no probe, no transaction, no iteration of the loop. *)
Theorem write_nothing_to_do fuel nor to n write_buf b :
  0 <= mtd_size nor <= SSIZE_MAX ->
  0 <= to <= mtd_size nor ->
  0 <= n <= SIZE_MAX ->
  n = 0 \/ to = mtd_size nor ->
  at25sf041_write fuel nor to n write_buf b = (Some 0, [], b).
Proof.
  intros Hsize Hto Hn Hzero. unfold at25sf041_write.
  rewrite (write_len_min nor to n Hsize Hto Hn).
  replace (Z.min n (mtd_size nor - to)) with 0 by lia.
  apply write_loop_done. lia.
Qed.

(** The page-program calls of the loop follow one another from the cursor
    the loop starts with, and together they are asked to write no more than
    [data_left] bytes. *)
Lemma write_loop_chunks fuel :
  forall nor write_len to write_buf data_left b,
    0 <= data_left <= SIZE_MAX ->
    - 2 ^ 63 <= to ->
    to + data_left < 2 ^ 63 ->
    chunks_from to write_buf
      (map fst (page_calls (events_of
         (at25sf041_write_loop fuel nor write_len to write_buf
            data_left b)))) /\
    total_length
      (page_calls (events_of
         (at25sf041_write_loop fuel nor write_len to write_buf
            data_left b))) <= data_left.
Proof.
  induction fuel as [|fuel IH];
    intros nor write_len to write_buf data_left b Hrange Hlo Hhi;
    destruct (Z.ltb_spec 0 data_left) as [Hpos|Hneg];
    try (rewrite write_loop_done by lia; cbn; split; [exact I|lia]).
  - rewrite write_loop_out_of_fuel by lia. cbn. split; [exact I|lia].
  - rewrite write_loop_step by lia. cbv zeta.
    destruct (write_chunk_spec to write_buf data_left Hpos)
      as (Hstart & Hbuf & _ & Hlen & _).
    set (page := at25sf041_write_chunk to write_buf data_left) in *.
    destruct (write_page_run nor page b) as (r & e0 & b1 & -> & Hnone & _).
    assert (Hlast :
      chunks_from to write_buf
        (map fst (page_calls (e0 ++ [EvWritePage page r]))) /\
      total_length (page_calls (e0 ++ [EvWritePage page r])) <= data_left).
    { rewrite page_calls_app, Hnone. unfold total_length.
      cbn [page_calls app map fst fold_right chunks_from].
      repeat split; try assumption; lia. }
    destruct (0 >? r); [exact Hlast|].
    destruct (negb _); [exact Hlast|].
    assert (Hleft : to_size_t (data_left - len page) = data_left - len page)
      by (apply to_size_t_id; lia).
    assert (Hto : to_loff_t (to + len page) = to + len page)
      by (apply to_loff_t_id; lia).
    specialize (IH nor write_len (to_loff_t (to + len page))
                  (drop (len page) write_buf)
                  (to_size_t (data_left - len page)) b1).
    rewrite Hleft, Hto in *.
    destruct (at25sf041_write_loop fuel _ _ _ _ _ b1) as [[res e2] b2].
    unfold events_of in *. cbn [fst snd] in *.
    destruct IH as [Hchain Hsum]; try lia.
    rewrite !page_calls_app, Hnone. unfold total_length in *.
    cbn [page_calls app map fst fold_right chunks_from].
    repeat split; try assumption; lia.
Qed.

(** Pages that follow one another from [to] lie between [to] and [to] plus
    the bytes they add up to. *)
Lemma chunks_from_bounds calls :
  forall to buf,
    chunks_from to buf (map fst calls) ->
    0 <= total_length calls /\
    Forall (fun call =>
              to <= spi_addr_start (fst call) /\
              spi_addr_start (fst call) + len (fst call)
              <= to + total_length calls) calls.
Proof.
  induction calls as [|[page r] calls IH]; intros to buf Hchain.
  - cbn. split; [lia|constructor].
  - cbn [map fst chunks_from] in Hchain.
    destruct Hchain as (Hstart & _ & Hlen & Hrest).
    destruct (IH _ _ Hrest) as [Hsum Hall].
    unfold total_length in *. cbn [fold_right fst].
    split; [lia|]. constructor.
    + cbn [fst]. lia.
    + revert Hall. apply Forall_impl. intros call. lia.
Qed.

(** No page-program call of a write that starts inside the device reaches
    past the end of the device or past the end of the request, however the
    bus behaves. *)
Theorem write_within_capacity fuel nor to n write_buf b :
  0 <= mtd_size nor <= SSIZE_MAX ->
  0 <= to <= mtd_size nor ->
  0 <= n <= SIZE_MAX ->
  Forall (fun call =>
            to <= spi_addr_start (fst call) /\
            spi_addr_start (fst call) + len (fst call) <= to + n /\
            spi_addr_start (fst call) + len (fst call) <= mtd_size nor)
    (page_calls (events_of (at25sf041_write fuel nor to n write_buf b))).
Proof.
  intros Hsize Hto Hn. unfold at25sf041_write.
  pose proof (write_len_min nor to n Hsize Hto Hn) as Hlen.
  destruct (write_loop_chunks fuel nor (at25sf041_write_len nor to n) to
              write_buf (at25sf041_write_len nor to n) b)
    as [Hchain Hsum]; unfold SSIZE_MAX, SIZE_MAX in *; try lia.
  destruct (chunks_from_bounds _ _ _ Hchain) as [_ Hall].
  revert Hall. apply Forall_impl. intros call. lia.
Qed.

(** The page-program calls of a write follow one another without gap or
    overlap, on the chip from [to] and in the buffer from its start:
    each call begins where the one before it ended. *)
Theorem write_chunks_contiguous fuel nor to n write_buf b :
  - 2 ^ 63 <= to ->
  to + at25sf041_write_len nor to n < 2 ^ 63 ->
  chunks_from to write_buf
    (map fst (page_calls
       (events_of (at25sf041_write fuel nor to n write_buf b)))).
Proof.
  intros Hlo Hhi. unfold at25sf041_write.
  apply write_loop_chunks; try assumption. apply to_size_t_range.
Qed.

Lemma take_nil (A : Type) n : take n (@nil A) = [].
Proof. cbn. destruct (0 <? n); reflexivity. Qed.

Lemma drop_nil (A : Type) n : drop n (@nil A) = [].
Proof. cbn. destruct (0 <? n); reflexivity. Qed.

Lemma take_0 (A : Type) (l : list A) : take 0 l = [].
Proof. destruct l; reflexivity. Qed.

Lemma drop_0 (A : Type) (l : list A) : drop 0 l = l.
Proof. destruct l; reflexivity. Qed.

Lemma take_drop_app (A : Type) (l : list A) :
  forall a b,
    0 <= a -> 0 <= b -> take a l ++ take b (drop a l) = take (a + b) l.
Proof.
  induction l as [|x l IH]; intros a b Ha Hb.
  - rewrite drop_nil, !take_nil. reflexivity.
  - destruct (Z.eq_dec a 0) as [->|Hne].
    + rewrite take_0, drop_0. reflexivity.
    + cbn [take drop].
      destruct (Z.ltb_spec 0 a); [|lia].
      destruct (Z.ltb_spec 0 (a + b)); [|lia].
      cbn [app]. rewrite IH by lia. do 2 f_equal. lia.
Qed.

(** Pages that follow one another in a buffer send, one after the other,
    the start of that buffer. *)
Lemma chunks_from_data calls :
  forall to buf,
    chunks_from to buf (map fst calls) ->
    List.concat (map (fun call => page_data (fst call)) calls)
    = take (total_length calls) buf.
Proof.
  induction calls as [|[page r] calls IH]; intros to buf Hchain.
  - cbn. rewrite take_0. reflexivity.
  - cbn [map fst chunks_from] in Hchain.
    destruct Hchain as (_ & Hbuf & Hlen & Hrest).
    destruct (chunks_from_bounds _ _ _ Hrest) as [Hsum _].
    unfold total_length in *. cbn [map List.concat fold_right fst].
    rewrite (IH _ _ Hrest). unfold page_data. rewrite Hbuf.
    apply take_drop_app; lia.
Qed.

(** When every page-program call returns the length it was asked to write,
    the bytes the calls send, one call after the other, are the first
    [write_len] bytes of the caller's buffer: nothing is left out, sent
    twice or reordered where the write is split. *)
Theorem write_sends_buffer fuel nor to n write_buf b :
  let write_len := at25sf041_write_len nor to n in
  let run := at25sf041_write fuel nor to n write_buf b in
  - 2 ^ 63 <= to ->
  to + write_len < 2 ^ 63 ->
  (Z.to_nat write_len <= fuel)%nat ->
  Forall wrote_all (page_calls (events_of run)) ->
  List.concat (map (fun call => page_data (fst call))
            (page_calls (events_of run)))
  = take write_len write_buf.
Proof.
  intros write_len run Hlo Hhi Hfuel Hall.
  unfold run, at25sf041_write in *. fold write_len in Hall |- *.
  assert (Hrange : 0 <= write_len <= SIZE_MAX) by apply to_size_t_range.
  destruct (write_loop_chunks fuel nor write_len to write_buf write_len b
              Hrange Hlo Hhi) as [Hchain _].
  rewrite (chunks_from_data _ _ _ Hchain).
  destruct (write_loop_completes fuel nor write_len to write_buf write_len b
              Hrange Hfuel Hall) as (_ & _ & ->).
  reflexivity.
Qed.

(** The number of page-program calls of a write that goes through. *)
Lemma write_loop_count fuel :
  forall nor write_len to write_buf data_left b,
    1 <= data_left <= SIZE_MAX ->
    - 2 ^ 63 <= to ->
    to + data_left < 2 ^ 63 ->
    (Z.to_nat data_left <= fuel)%nat ->
    Forall wrote_all
      (page_calls (events_of
         (at25sf041_write_loop fuel nor write_len to write_buf
            data_left b))) ->
    Z.of_nat (List.length
      (page_calls (events_of
         (at25sf041_write_loop fuel nor write_len to write_buf
            data_left b))))
    = (to + data_left - 1) / AT25SF041_PAGE_SIZE
      - to / AT25SF041_PAGE_SIZE + 1.
Proof.
  induction fuel as [|fuel IH];
    intros nor write_len to write_buf data_left b Hrange Hlo Hhi Hfuel;
    [lia|].
  rewrite write_loop_step by lia. cbv zeta.
  destruct (write_chunk_spec to write_buf data_left ltac:(lia))
    as (_ & _ & Hmin & Hlen & _ & Hsame).
  set (page := at25sf041_write_chunk to write_buf data_left) in *.
  cbn [spi_addr_start] in Hsame. fold page in Hsame.
  replace (spi_addr_start page) with to in Hsame by reflexivity.
  destruct (write_page_run nor page b) as (r & e0 & b1 & -> & Hnone & Hr).
  assert (Hleft : to_size_t (data_left - len page) = data_left - len page)
    by (apply to_size_t_id; lia).
  assert (Hto : to_loff_t (to + len page) = to + len page)
    by (apply to_loff_t_id; lia).
  assert (Hr0 : forall e2,
    Forall wrote_all (page_calls ((e0 ++ [EvWritePage page r]) ++ e2)) ->
    r = len page /\ Forall wrote_all (page_calls e2)).
  { intros e Hall. rewrite !page_calls_app, Hnone in Hall. simpl in Hall.
    inversion Hall; subst. auto. }
  destruct (Z.gtb_spec 0 r) as [Hneg|Hnonneg].
  { unfold events_of. cbn [fst snd]. intros Hall.
    rewrite <- (app_nil_r (e0 ++ _)) in Hall. apply Hr0 in Hall. lia. }
  rewrite (to_size_t_id r) by (unfold SIZE_MAX, SSIZE_MAX in *; lia).
  destruct (Z.eqb_spec (len page) r) as [Hwrote|Hdiff]; cbn [negb].
  2:{ unfold events_of. cbn [fst snd]. intros Hall.
      rewrite <- (app_nil_r (e0 ++ _)) in Hall. apply Hr0 in Hall. lia. }
  rewrite Hleft, Hto.
  unfold AT25SF041_PAGE_SIZE in *.
  pose proof (Z.div_mod to 256 ltac:(lia)) as Hdm.
  pose proof (Z.mod_pos_bound to 256 ltac:(lia)) as Hoff.
  destruct (Z.eq_dec (data_left - len page) 0) as [Hdone|Hmore].
  - rewrite Hdone, write_loop_done by lia.
    unfold events_of. cbn [fst snd]. intros _.
    rewrite app_nil_r, page_calls_app, Hnone. cbn [page_calls app List.length].
    replace (to + data_left - 1) with (to + len page - 1) by lia.
    rewrite <- Hsame. lia.
  - specialize (IH nor write_len (to + len page)
                  (drop (len page) write_buf) (data_left - len page) b1).
    destruct (at25sf041_write_loop fuel _ _ _ _ _ b1) as [[res e2] b2].
    unfold events_of in *. cbn [fst snd] in *. intros Hall.
    apply Hr0 in Hall. destruct Hall as [_ Hall].
    rewrite !page_calls_app, Hnone. cbn [page_calls app List.length].
    rewrite Nat2Z.inj_succ, IH by (try assumption; lia).
    replace (to + len page + (data_left - len page) - 1)
      with (to + data_left - 1) by lia.
    assert (Hnext : (to + len page) / 256 = to / 256 + 1).
    { symmetry. apply (Z.div_unique _ 256 _ 0); lia. }
    rewrite Hnext. lia.
Qed.

(** A write that goes through programs each page it touches once: the
    number of page-program calls is the number of 256-byte pages from the
    page of the first byte to the page of the last byte. *)
Theorem write_page_count fuel nor to n write_buf b :
  let write_len := at25sf041_write_len nor to n in
  let run := at25sf041_write fuel nor to n write_buf b in
  1 <= write_len ->
  - 2 ^ 63 <= to ->
  to + write_len < 2 ^ 63 ->
  (Z.to_nat write_len <= fuel)%nat ->
  Forall wrote_all (page_calls (events_of run)) ->
  Z.of_nat (List.length (page_calls (events_of run)))
  = (to + write_len - 1) / AT25SF041_PAGE_SIZE
    - to / AT25SF041_PAGE_SIZE + 1.
Proof.
  intros write_len run Hpos Hlo Hhi Hfuel Hall.
  unfold run, at25sf041_write in *. fold write_len in Hall |- *.
  apply write_loop_count; try assumption.
  pose proof (to_size_t_range
                (to_loff_t
                   (min_loff_t (to_loff_t (mtd_size nor))
                      (to_loff_t (to + n)) - to))) as H.
  fold (at25sf041_write_len nor to n) in H. fold write_len in H. lia.
Qed.

(** The loop of [at25sf041_write] comes to its end however the bus
    behaves: with room for [write_len] iterations the write returns a
    value. *)
Theorem write_always_returns fuel nor to n write_buf b :
  (Z.to_nat (at25sf041_write_len nor to n) <= fuel)%nat ->
  exists v, result_of (at25sf041_write fuel nor to n write_buf b) = Some v.
Proof.
  intros Hfuel.
  pose proof (write_returns fuel nor to n write_buf b Hfuel) as H.
  destruct (result_of _) as [v|]; [eauto|now elim H].
Qed.

(** The driver does not reject a write that starts past the end of the
    device: the clamped length wraps around as a [size_t], whatever length
    was asked for, and the loop issues a page program at [to]. *)
Theorem write_past_capacity fuel nor to n write_buf b :
  0 <= mtd_size nor <= SSIZE_MAX ->
  mtd_size nor < to <= mtd_size nor + SIZE_MAX ->
  0 <= n <= SIZE_MAX ->
  (1 <= fuel)%nat ->
  at25sf041_write_len nor to n = 2 ^ 32 - (to - mtd_size nor) /\
  exists page r rest,
    page_calls (events_of (at25sf041_write fuel nor to n write_buf b))
    = (page, r) :: rest /\
    spi_addr_start page = to /\ 1 <= len page.
Proof.
  unfold SSIZE_MAX, SIZE_MAX. intros Hsize Hto Hn Hfuel.
  assert (Hlen : at25sf041_write_len nor to n
                 = 2 ^ 32 - (to - mtd_size nor)).
  { unfold at25sf041_write_len, min_loff_t.
    rewrite (to_loff_t_id (mtd_size nor)) by lia.
    rewrite (to_loff_t_id (to + n)) by lia.
    destruct (Z.ltb_spec (mtd_size nor) (to + n)); [|lia].
    rewrite to_loff_t_id by lia.
    unfold to_size_t, wrap_unsigned.
    symmetry. apply (Z.mod_unique _ _ (-1)); lia. }
  split; [exact Hlen|].
  unfold at25sf041_write. rewrite Hlen.
  destruct fuel as [|fuel]; [lia|].
  rewrite write_loop_step by lia. cbv zeta.
  destruct (write_chunk_spec to write_buf (2 ^ 32 - (to - mtd_size nor))
              ltac:(lia)) as (Hstart & _ & _ & Hchunk & _).
  set (page := at25sf041_write_chunk to write_buf _) in *.
  destruct (write_page_run nor page b) as (r & e0 & b1 & -> & Hnone & _).
  exists page, r.
  destruct (0 >? r).
  { exists []. unfold events_of. cbn [fst snd].
    rewrite page_calls_app, Hnone. repeat split; try assumption; lia. }
  destruct (negb _).
  { exists []. unfold events_of. cbn [fst snd].
    rewrite page_calls_app, Hnone. repeat split; try assumption; lia. }
  destruct (at25sf041_write_loop fuel _ _ _ _ _ b1) as [[res e2] b2].
  exists (page_calls e2). unfold events_of. cbn [fst snd].
  rewrite !page_calls_app, Hnone. repeat split; try assumption; lia.
Qed.

(** ** On a transport that keeps the contract of [spi_sync]

    [spi_sync] returns zero on success and a negative error code
    otherwise. *)

Lemma sync_results_app e1 e2 :
  sync_results (e1 ++ e2) = sync_results e1 ++ sync_results e2.
Proof.
  induction e1 as [|[m r|p r|f r] e1 IH]; simpl; try rewrite IH; reflexivity.
Qed.

(** The result of the probe against the status of its transaction. *)
Lemma test_con_result b :
  exists r r0 b',
    at25sf041_test_con b
    = (r, [EvSpiSync at25sf041_test_con_message r0], b') /\
    - 2 ^ 31 <= r <= SSIZE_MAX /\
    (r0 <> 0 -> r = r0) /\
    (r0 = 0 -> r = 0 \/ r = - EIO).
Proof.
  destruct (test_con_run b) as (r & r0 & b' & Hrun & Hrange).
  exists r, r0, b'. split; [exact Hrun|]. split; [exact Hrange|].
  revert Hrun. unfold at25sf041_test_con, bind.
  destruct (spi_sync_run at25sf041_test_con_message b)
    as (r1 & rxs & b1 & -> & _).
  destruct (Z.eqb_spec 0 r1) as [<-|Hr1]; cbn [negb].
  2:{ cbn [ret app]. intros [= <- <- _]. split; [auto|congruence]. }
  destruct (255 =? rx_byte rxs 0 0).
  { cbn [ret app]. intros [= <- <- _]. split; [congruence|auto]. }
  destruct (Z.land (rx_byte rxs 0 0) SR_WIP =? 0).
  2:{ cbn [ret app]. intros [= <- <- _]. split; [congruence|auto]. }
  destruct (_ || _); cbn [ret app]; intros [= <- <- _];
    (split; [congruence|auto]).
Qed.

(** One page program on such a transport: it fails with a negative value,
    or it returns the length of the page after exactly the probe and the
    program transaction. *)
Lemma write_page_on_contract_bus nor page b :
  1 <= len page <= SSIZE_MAX ->
  exists r evs b',
    at25sf041_write_page nor page b = (r, evs ++ [EvWritePage page r], b') /\
    page_calls evs = [] /\
    (Forall (fun status => status <= 0) (sync_results evs) ->
     r < 0 \/
     (r = len page /\
      syncs evs
      = [at25sf041_test_con_message; at25sf041_write_page_message page])).
Proof.
  intros Hlen.
  unfold at25sf041_write_page, at25sf041_write_page_body, bind.
  destruct (test_con_result b) as (r & r0 & b1 & -> & Hr & Hne & Heq).
  rewrite (to_ssize_t_id r) by assumption.
  destruct (Z.eqb_spec 0 r) as [<-|Hfail]; cbn [negb].
  - destruct (spi_sync_run (at25sf041_write_page_message page) b1)
      as (r1 & rxs & b2 & -> & Hr1).
    rewrite (to_ssize_t_id r1) by assumption.
    destruct (Z.eqb_spec 0 r1) as [<-|Hr1']; cbn [negb].
    + rewrite to_ssize_t_id by (unfold SSIZE_MAX in *; lia).
      eexists _, [_; _], _. cbn. repeat split. intros _. right. auto.
    + eexists _, [_; _], _. cbn. repeat split. intros Hall. left.
      inversion Hall as [|? ? _ Hall']; subst.
      inversion Hall' as [|? ? H1 _]; subst. lia.
  - eexists _, [_; _], _. cbn. repeat split. intros Hall. left.
    inversion Hall as [|? ? H0 _]; subst.
    destruct (Z.eq_dec r0 0) as [E|E].
    + destruct (Heq E) as [->| ->]; [congruence|unfold EIO; lia].
    + rewrite (Hne E) in *. lia.
Qed.

Lemma write_loop_on_contract_bus fuel :
  forall nor write_len to write_buf data_left b,
    Forall (fun status => status <= 0)
      (sync_results (events_of
         (at25sf041_write_loop fuel nor write_len to write_buf
            data_left b))) ->
    Forall (fun call => snd call < 0 \/ snd call = len (fst call))
      (page_calls (events_of
         (at25sf041_write_loop fuel nor write_len to write_buf
            data_left b))) /\
    (Forall wrote_all
       (page_calls (events_of
          (at25sf041_write_loop fuel nor write_len to write_buf
             data_left b))) ->
     syncs (events_of
       (at25sf041_write_loop fuel nor write_len to write_buf data_left b))
     = flat_map
         (fun call => [at25sf041_test_con_message;
                       at25sf041_write_page_message (fst call)])
         (page_calls (events_of
            (at25sf041_write_loop fuel nor write_len to write_buf
               data_left b)))).
Proof.
  induction fuel as [|fuel IH];
    intros nor write_len to write_buf data_left b;
    destruct (Z.ltb_spec 0 data_left) as [Hpos|Hneg];
    try (rewrite write_loop_done by lia; cbn; intros _;
         split; [constructor|reflexivity]).
  - rewrite write_loop_out_of_fuel by lia. cbn. intros _.
    split; [constructor|reflexivity].
  - rewrite write_loop_step by lia. cbv zeta.
    destruct (write_chunk_spec to write_buf data_left Hpos)
      as (_ & _ & Hmin & Hlen & _).
    set (page := at25sf041_write_chunk to write_buf data_left) in *.
    assert (Hpage : 1 <= len page <= SSIZE_MAX).
    { unfold AT25SF041_PAGE_SIZE, SSIZE_MAX in *.
      pose proof (Z.mod_pos_bound to 256 ltac:(lia)). lia. }
    destruct (write_page_on_contract_bus nor page b Hpage)
      as (r & e0 & b1 & -> & Hnone & Hcontract).
    assert (Hlast :
      Forall (fun status => status <= 0)
        (sync_results (e0 ++ [EvWritePage page r])) ->
      r < 0 ->
      Forall (fun call => snd call < 0 \/ snd call = len (fst call))
        (page_calls (e0 ++ [EvWritePage page r])) /\
      (Forall wrote_all (page_calls (e0 ++ [EvWritePage page r])) ->
       syncs (e0 ++ [EvWritePage page r])
       = flat_map
           (fun call => [at25sf041_test_con_message;
                         at25sf041_write_page_message (fst call)])
           (page_calls (e0 ++ [EvWritePage page r])))).
    { intros _ Hr. rewrite !page_calls_app, Hnone. cbn [page_calls app].
      split.
      - constructor; [cbn [fst snd]; lia|constructor].
      - intros Hall. inversion Hall as [|? ? Hw _]; subst.
        unfold wrote_all in Hw. cbn [fst snd] in Hw. lia. }
    destruct (Z.gtb_spec 0 r) as [Hr|Hr].
    { unfold events_of. cbn [fst snd]. intros Hall.
      apply Hlast; [assumption|lia]. }
    destruct (Z.eqb_spec (len page) (to_size_t r)) as [Hsame|Hdiff];
      cbn [negb].
    2:{ unfold events_of. cbn [fst snd]. intros Hall.
        rewrite sync_results_app in Hall. apply Forall_app in Hall.
        destruct (Hcontract (proj1 Hall)) as [Hbad|[Hgood _]]; [lia|].
        rewrite Hgood, to_size_t_id in Hdiff
          by (unfold SIZE_MAX, SSIZE_MAX in *; lia).
        now elim Hdiff. }
    specialize (IH nor write_len (to_loff_t (to + len page))
                  (drop (len page) write_buf)
                  (to_size_t (data_left - len page)) b1).
    destruct (at25sf041_write_loop fuel _ _ _ _ _ b1) as [[res e2] b2].
    unfold events_of in *. cbn [fst snd] in *. intros Hall.
    rewrite !sync_results_app in Hall.
    apply Forall_app in Hall. destruct Hall as [Hall0 Hall2].
    apply Forall_app in Hall0. destruct Hall0 as [Hall0 _].
    destruct (Hcontract Hall0) as [Hbad|[Hgood Hsyncs]]; [lia|].
    destruct (IH Hall2) as [IHcalls IHsyncs].
    rewrite !page_calls_app, !syncs_app, Hnone, Hsyncs.
    cbn [page_calls syncs app flat_map fst]. split.
    + constructor; [cbn [fst snd]; lia|assumption].
    + intros Hw. inversion Hw as [|? ? _ Hw']; subst.
      rewrite (IHsyncs Hw'). reflexivity.
Qed.

(** On a transport that reports only zero or negative statuses, every
    page-program call of a write returns a negative error or exactly the
    length it was asked to write: the write never fails on a length that
    does not match. *)
Theorem write_pages_fail_or_complete fuel nor to n write_buf b :
  let run := at25sf041_write fuel nor to n write_buf b in
  Forall (fun status => status <= 0) (sync_results (events_of run)) ->
  Forall (fun call => snd call < 0 \/ snd call = len (fst call))
    (page_calls (events_of run)).
Proof.
  intros run Hall. unfold run, at25sf041_write in *.
  apply write_loop_on_contract_bus. exact Hall.
Qed.

(** On such a transport, a write whose page programs all go through puts
    exactly two transactions on the bus for each of them, in this order:
    the probe, then the program command of that page. *)
Theorem write_transactions fuel nor to n write_buf b :
  let run := at25sf041_write fuel nor to n write_buf b in
  Forall (fun status => status <= 0) (sync_results (events_of run)) ->
  Forall wrote_all (page_calls (events_of run)) ->
  syncs (events_of run)
  = flat_map
      (fun call => [at25sf041_test_con_message;
                    at25sf041_write_page_message (fst call)])
      (page_calls (events_of run)).
Proof.
  intros run Hall Hwrote. unfold run, at25sf041_write in *.
  apply write_loop_on_contract_bus; assumption.
Qed.

End Driver.

(** * The theorems at work on the scripted bus *)

(** A status of 0xFF is a broken link even when the identity bytes are the
    right ones. *)
Lemma test_con_status_ff_witness :
  at25sf041_test_con (B := scripted_bus) [(0, [0xFF; 0x1F; 0x84; 0x01])]
  = (- EIO, [EvSpiSync at25sf041_test_con_message 0], []).
Proof.
  apply (test_con_status_ff (B := scripted_bus) _ 0xFF 0x1F 0x84 0x01);
    reflexivity.
Defined.

(** While a write is in progress the identity reads as 0xFF 0xFF 0xFF and
    the probe still passes. *)
Lemma test_con_write_in_progress_witness :
  at25sf041_test_con (B := scripted_bus) [(0, [0x03; 0xFF; 0xFF; 0xFF])]
  = (0, [EvSpiSync at25sf041_test_con_message 0], []).
Proof.
  apply (test_con_write_in_progress (B := scripted_bus) _ 0x03 0xFF 0xFF 0xFF);
    [reflexivity | lia | vm_compute; discriminate].
Defined.

(** An idle chip with the right identity passes; one wrong identity byte
    does not. *)
Lemma test_con_idle_identity_witness :
  at25sf041_test_con (B := scripted_bus) [probe_idle]
  = (0, [EvSpiSync at25sf041_test_con_message 0], []) /\
  at25sf041_test_con (B := scripted_bus) [(0, [0x00; 0x1F; 0x84; 0x02])]
  = (- EIO, [EvSpiSync at25sf041_test_con_message 0], []).
Proof.
  split.
  - apply (proj1 (test_con_idle_identity (B := scripted_bus) [probe_idle]
                    0x1F 0x84 0x01 _ [] eq_refl)).
    reflexivity.
  - apply (proj2 (test_con_idle_identity (B := scripted_bus)
                    [(0, [0x00; 0x1F; 0x84; 0x02])]
                    0x1F 0x84 0x02 _ [] eq_refl)).
    right. right. lia.
Defined.

(** A register read on a floating bus: the probe's transaction and nothing
    else, and the probe's error comes back. *)
Lemma register_access_probe_first_witness :
  let rd := at25sf041_read_reg (B := scripted_bus) at25sf041_nor
              SPINOR_OP_RDSR [0] 1
              [(0, [0xFF; 0xFF; 0xFF; 0xFF]); (0, [0x00])] in
  result_of rd = (- EIO, [0]) /\
  syncs (events_of rd) = [at25sf041_test_con_message] /\
  bus_of rd = [(0, [0x00])].
Proof.
  intros rd.
  destruct (register_access_probe_first (B := scripted_bus) at25sf041_nor
              SPINOR_OP_RDSR [0] 1
              [(0, [0xFF; 0xFF; 0xFF; 0xFF]); (0, [0x00])])
    as (Hprobe & (rest & Hevs & Hfail) & _).
  destruct Hfail as (Hres & Hrest & Hbus); [vm_compute; discriminate|].
  fold rd in Hevs, Hres, Hbus.
  rewrite Hres, Hevs, syncs_app, Hprobe, Hrest, Hbus.
  repeat split.
Defined.

(** 256 bytes asked for, 16 bytes before the end of the chip: 16 bytes
    read. *)
Lemma read_truncates_at_capacity_witness :
  result_of
    (at25sf041_read (B := scripted_bus) at25sf041_nor 0x7FFF0 256 (repeat 0 16)
       [probe_idle; (0, repeat 0xFF 16)])
  = (16, repeat 0xFF 16).
Proof.
  erewrite (read_truncates_at_capacity (B := scripted_bus) at25sf041_nor
              0x7FFF0 256); cycle 1.
  - unfold at25sf041_nor, SSIZE_MAX. simpl. lia.
  - unfold at25sf041_nor. simpl. lia.
  - unfold SIZE_MAX. lia.
  - unfold at25sf041_nor. simpl. lia.
  - reflexivity.
  - reflexivity.
  - reflexivity.
Defined.

(** A read at the very end of the chip: 0 bytes, after the probe and an
    empty read transaction. *)
Lemma read_at_capacity_witness :
  let rd := at25sf041_read (B := scripted_bus) at25sf041_nor 0x80000 16 []
              [probe_idle; (0, [])] in
  result_of rd = (0, []) /\
  syncs (events_of rd)
  = [at25sf041_test_con_message; at25sf041_read_message 0x80000 0 []].
Proof.
  intros rd.
  destruct (read_at_capacity (B := scripted_bus) at25sf041_nor 16 []
              [probe_idle; (0, [])]) as (_ & _ & Hok).
  - unfold at25sf041_nor, SSIZE_MAX. simpl. lia.
  - unfold SIZE_MAX. lia.
  - apply (Hok eq_refl [[]] _ [] eq_refl).
Defined.

(** C1 as stated fails.  One byte past the end of the chip, on a bus where
    everything succeeds, the read does not return 0, and it has used the
    bus. *)
Lemma read_past_capacity_counterexample :
  let rd := at25sf041_read (B := scripted_bus) at25sf041_nor 0x80001 16 []
              [probe_idle; (0, [])] in
  fst (result_of rd) <> 0 /\ syncs (events_of rd) <> [].
Proof. vm_compute. split; discriminate. Qed.

(** A write across the page boundary at 256 and across the one at 512. *)
Lemma write_never_crosses_page_witness :
  Forall (fun call => within_one_page (fst call))
    (page_calls (events_of
       (at25sf041_write (B := scripted_bus) 3 at25sf041_nor 250 300
          (repeat 0 300)
          [probe_idle; (0, []); probe_idle; (0, []); probe_idle; (0, [])]))).
Proof. apply (write_never_crosses_page (B := scripted_bus)). Defined.

(** The controller reports 5 for the first page program, which asked for 3
    bytes: [-EIO], and the rest of the script is not touched.  The
    controller reports -110 instead: -110 comes back. *)
Lemma write_aborts_on_failed_page_witness :
  let p1 := {| spi_addr_start := 253; buffer_start := repeat 0 10;
               len := 3 |} in
  let short := at25sf041_write (B := scripted_bus) 2 at25sf041_nor 253 10
                 (repeat 0 10)
                 [probe_idle; (5, []); probe_idle; (0, [])] in
  let failed := at25sf041_write (B := scripted_bus) 2 at25sf041_nor 253 10
                  (repeat 0 10)
                  [probe_idle; (-110, []); probe_idle; (0, [])] in
  (result_of short = Some (- EIO) /\ page_calls (events_of short) = [(p1, 5)])
  /\
  (result_of failed = Some (-110) /\
   page_calls (events_of failed) = [(p1, -110)]).
Proof.
  intros p1 short failed. split.
  - split; [|reflexivity].
    apply (proj1 (write_aborts_on_failed_page (B := scripted_bus) 2
                    at25sf041_nor 253 10 (repeat 0 10)
                    [probe_idle; (5, []); probe_idle; (0, [])]
                    (removelast (events_of short)) p1 5 [] eq_refl));
      [lia | vm_compute; discriminate].
  - split; [|reflexivity].
    apply (proj2 (write_aborts_on_failed_page (B := scripted_bus) 2
                    at25sf041_nor 253 10 (repeat 0 10)
                    [probe_idle; (-110, []); probe_idle; (0, [])]
                    (removelast (events_of failed)) p1 (-110) [] eq_refl)).
    lia.
Defined.

(** The write of 10 bytes at 253 on the chip. *)
Lemma write_253_10_witness :
  let run := at25sf041_write (B := scripted_bus) 2 at25sf041_nor 253 10
               (repeat 0 10) [probe_idle; (0, []); probe_idle; (0, [])] in
  result_of run = Some 10 /\
  map (fun call => len (fst call)) (page_calls (events_of run)) = [3; 7].
Proof.
  intros run.
  destruct (write_253_10 (B := scripted_bus) 2 at25sf041_nor (repeat 0 10)
              [probe_idle; (0, []); probe_idle; (0, [])])
    as [Hres Hpages].
  - lia.
  - unfold at25sf041_nor. simpl. lia.
  - vm_compute. repeat constructor.
  - fold run in Hres, Hpages. split; [exact Hres|].
    rewrite <- (map_map fst len), Hpages. reflexivity.
Defined.

(** 600 bytes from 250: four chunks, and the loop ends with all 600
    written. *)
Lemma write_loop_terminates_witness :
  let script := [probe_idle; (0, []); probe_idle; (0, []);
                 probe_idle; (0, []); probe_idle; (0, [])] in
  let run := at25sf041_write (B := scripted_bus) 600 at25sf041_nor 250 600
               (repeat 0 600) script in
  result_of run = Some 600 /\
  map (fun call => len (fst call)) (page_calls (events_of run))
  = [6; 256; 256; 82].
Proof.
  intros script run.
  destruct (write_loop_terminates (B := scripted_bus) 600 at25sf041_nor
              250 600 (repeat 0 600) script) as (_ & Hres & _ & _).
  - vm_compute. lia.
  - vm_compute. repeat constructor.
  - split; [exact Hres | reflexivity].
Defined.

(** * The further properties at work on the scripted bus *)

(** A timeout of the controller ([-ETIMEDOUT]) is what the probe
    returns. *)
Lemma test_con_transport_error_witness :
  at25sf041_test_con (B := scripted_bus) [(-110, [0x00; 0x1F; 0x84; 0x01])]
  = (-110, [EvSpiSync at25sf041_test_con_message (-110)], []).
Proof.
  eapply (test_con_transport_error (B := scripted_bus)).
  - reflexivity.
  - lia.
Defined.

(** Status 0x02 (write enabled, no write in progress) with the right
    identity: connected. *)
Lemma test_con_connected_iff_witness :
  result_of (at25sf041_test_con (B := scripted_bus)
               [(0, [0x02; 0x1F; 0x84; 0x01])]) = 0.
Proof.
  apply (proj1 (test_con_connected_iff (B := scripted_bus)
                  [(0, [0x02; 0x1F; 0x84; 0x01])] 0 0x02 0x1F 0x84 0x01
                  _ [] eq_refl)).
  repeat split; [lia|]. right. reflexivity.
Defined.

(** A write-enable command (opcode 0x06, no payload) that the controller
    fails with [-ETIMEDOUT]. *)
Lemma register_access_after_probe_witness :
  result_of (at25sf041_write_reg (B := scripted_bus) at25sf041_nor 0x06 [] 0
               [probe_idle; (-110, [])]) = -110.
Proof.
  destruct (register_access_after_probe (B := scripted_bus) at25sf041_nor
              0x06 [] 0 [probe_idle; (-110, [])]
              [EvSpiSync at25sf041_test_con_message 0] [(-110, [])] eq_refl)
    as [_ (Hres & _)].
  rewrite Hres. reflexivity.
Defined.

(** The write-enable command on the wire: the probe, then one transfer
    with the opcode. *)
Lemma register_access_opcode_only_witness :
  syncs (events_of (at25sf041_write_reg (B := scripted_bus) at25sf041_nor
                      0x06 [] 0 [probe_idle; (0, [])]))
  = [at25sf041_test_con_message;
     [ {| tx_buf := Some [0x06]; rx_buf := None; xfer_len := 1;
          cs_change := false |} ]].
Proof.
  destruct (register_access_opcode_only (B := scripted_bus) at25sf041_nor
              0x06 [] 0 [probe_idle; (0, [])]
              [EvSpiSync at25sf041_test_con_message 0] [(0, [])]
              ltac:(lia) eq_refl)
    as (_ & _ & Hwr).
  rewrite Hwr. reflexivity.
Defined.

(** A read on a floating bus. *)
Lemma read_probe_failure_witness :
  let rd := at25sf041_read (B := scripted_bus) at25sf041_nor 0 4 [0; 0; 0; 0]
              [(0, [0xFF; 0xFF; 0xFF; 0xFF]); (0, [1; 2; 3; 4])] in
  result_of rd = (- EIO, [0; 0; 0; 0]) /\
  syncs (events_of rd) = [at25sf041_test_con_message] /\
  bus_of rd = [(0, [1; 2; 3; 4])].
Proof.
  intros rd.
  destruct (read_probe_failure (B := scripted_bus) at25sf041_nor 0 4
              [0; 0; 0; 0]
              [(0, [0xFF; 0xFF; 0xFF; 0xFF]); (0, [1; 2; 3; 4])])
    as (Hres & Hsyncs & Hbus).
  - vm_compute. discriminate.
  - fold rd in Hres, Hsyncs, Hbus. rewrite Hres, Hsyncs, Hbus.
    repeat split.
Defined.

(** Four bytes from the middle of the chip: four bytes read. *)
Lemma read_returns_min_witness :
  result_of
    (at25sf041_read (B := scripted_bus) at25sf041_nor 0x1234 4 [0; 0; 0; 0]
       [probe_idle; (0, [1; 2; 3; 4])])
  = (4, [1; 2; 3; 4]).
Proof.
  erewrite (read_returns_min (B := scripted_bus) at25sf041_nor 0x1234 4);
    cycle 1.
  - unfold at25sf041_nor, SSIZE_MAX. simpl. lia.
  - unfold at25sf041_nor. simpl. lia.
  - unfold SIZE_MAX. lia.
  - reflexivity.
  - reflexivity.
  - reflexivity.
Defined.

(** The read transaction times out. *)
Lemma read_transport_error_witness :
  fst (result_of
         (at25sf041_read (B := scripted_bus) at25sf041_nor 0x1234 4
            [0; 0; 0; 0] [probe_idle; (-110, [])]))
  = -110.
Proof.
  erewrite (read_transport_error (B := scripted_bus) at25sf041_nor 0x1234 4);
    cycle 1.
  - reflexivity.
  - reflexivity.
  - vm_compute. discriminate.
  - reflexivity.
Defined.

(** One byte past the end of the chip: the read returns -1. *)
Lemma read_past_capacity_witness :
  fst (result_of
         (at25sf041_read (B := scripted_bus) at25sf041_nor 0x80001 16 []
            [probe_idle; (0, [])]))
  = -1.
Proof.
  erewrite (read_past_capacity (B := scripted_bus) at25sf041_nor 0x80001 16);
    cycle 1.
  - unfold at25sf041_nor, SSIZE_MAX. simpl. lia.
  - unfold at25sf041_nor. simpl. lia.
  - unfold SIZE_MAX. lia.
  - reflexivity.
  - reflexivity.
  - reflexivity.
Defined.

(** The last byte of the chip is at 07 FF FF. *)
Lemma read_command_address_witness :
  command_address (at25sf041_read_message 0x7FFFF 1 [0]) = Some 0x7FFFF.
Proof.
  apply (proj2 (read_command_address 0x7FFFF 1 [0])). lia.
Defined.

Lemma write_page_command_address_witness :
  command_address
    (at25sf041_write_page_message
       {| spi_addr_start := 0x12300; buffer_start := [1; 2; 3]; len := 3 |})
  = Some 0x12300.
Proof.
  apply (proj2 (write_page_command_address
                  {| spi_addr_start := 0x12300; buffer_start := [1; 2; 3];
                     len := 3 |})).
  simpl. lia.
Defined.

(** A page program on a floating bus. *)
Lemma write_page_probe_failure_witness :
  let wp := at25sf041_write_page (B := scripted_bus) at25sf041_nor
              {| spi_addr_start := 0; buffer_start := [1; 2; 3]; len := 3 |}
              [(0, [0xFF; 0xFF; 0xFF; 0xFF]); (0, [])] in
  result_of wp = - EIO /\
  syncs (events_of wp) = [at25sf041_test_con_message] /\
  bus_of wp = [(0, [])].
Proof.
  intros wp.
  destruct (write_page_probe_failure (B := scripted_bus) at25sf041_nor
              {| spi_addr_start := 0; buffer_start := [1; 2; 3]; len := 3 |}
              [(0, [0xFF; 0xFF; 0xFF; 0xFF]); (0, [])])
    as (Hres & Hsyncs & Hbus).
  - vm_compute. discriminate.
  - fold wp in Hres, Hsyncs, Hbus. rewrite Hres, Hsyncs, Hbus.
    repeat split.
Defined.

(** A page program that goes through returns the length of the page. *)
Lemma write_page_after_probe_witness :
  result_of
    (at25sf041_write_page (B := scripted_bus) at25sf041_nor
       {| spi_addr_start := 0; buffer_start := [1; 2; 3]; len := 3 |}
       [probe_idle; (0, [])])
  = 3.
Proof.
  erewrite (write_page_after_probe (B := scripted_bus) at25sf041_nor
              {| spi_addr_start := 0; buffer_start := [1; 2; 3];
                 len := 3 |}); cycle 1.
  - unfold SSIZE_MAX. simpl. lia.
  - reflexivity.
  - reflexivity.
  - reflexivity.
Defined.

(** An empty write does not even look at the script. *)
Lemma write_nothing_to_do_witness :
  at25sf041_write (B := scripted_bus) 0 at25sf041_nor 0x100 0 []
    [(0, [0xFF; 0xFF; 0xFF; 0xFF])]
  = (Some 0, [], [(0, [0xFF; 0xFF; 0xFF; 0xFF])]).
Proof.
  apply (write_nothing_to_do (B := scripted_bus)).
  - unfold at25sf041_nor, SSIZE_MAX. simpl. lia.
  - unfold at25sf041_nor. simpl. lia.
  - unfold SIZE_MAX. lia.
  - left. reflexivity.
Defined.

(** 300 bytes asked for, 16 bytes before the end of the chip: the one page
    program ends at the end of the chip. *)
Lemma write_within_capacity_witness :
  Forall (fun call =>
            0x7FFF0 <= spi_addr_start (fst call) /\
            spi_addr_start (fst call) + len (fst call) <= 0x7FFF0 + 300 /\
            spi_addr_start (fst call) + len (fst call) <= 0x80000)
    (page_calls (events_of
       (at25sf041_write (B := scripted_bus) 2 at25sf041_nor 0x7FFF0 300
          (repeat 0 300) [probe_idle; (0, [])]))).
Proof.
  apply (write_within_capacity (B := scripted_bus) 2 at25sf041_nor 0x7FFF0
           300).
  - unfold at25sf041_nor, SSIZE_MAX. simpl. lia.
  - unfold at25sf041_nor. simpl. lia.
  - unfold SIZE_MAX. lia.
Defined.

(** The chunks of 600 bytes from 250 follow one another. *)
Lemma write_chunks_contiguous_witness :
  chunks_from 250 (repeat 7 600)
    (map fst (page_calls (events_of
       (at25sf041_write (B := scripted_bus) 4 at25sf041_nor 250 600
          (repeat 7 600)
          [probe_idle; (0, []); probe_idle; (0, []);
           probe_idle; (0, []); probe_idle; (0, [])])))).
Proof.
  apply (write_chunks_contiguous (B := scripted_bus)).
  - lia.
  - vm_compute. reflexivity.
Defined.

(** The bytes 1 .. 10 written at 253 go out as 1 .. 3 and 4 .. 10. *)
Lemma write_sends_buffer_witness :
  List.concat
    (map (fun call => page_data (fst call))
       (page_calls (events_of
          (at25sf041_write (B := scripted_bus) 10 at25sf041_nor 253 10
             [1; 2; 3; 4; 5; 6; 7; 8; 9; 10]
             [probe_idle; (0, []); probe_idle; (0, [])]))))
  = [1; 2; 3; 4; 5; 6; 7; 8; 9; 10].
Proof.
  rewrite (write_sends_buffer (B := scripted_bus) 10 at25sf041_nor 253 10).
  - reflexivity.
  - lia.
  - vm_compute. reflexivity.
  - vm_compute. lia.
  - forall_by_computation.
Defined.

(** 600 bytes from 250 touch the pages 0, 1, 2 and 3. *)
Lemma write_page_count_witness :
  List.length
    (page_calls (events_of
       (at25sf041_write (B := scripted_bus) 600 at25sf041_nor 250 600
          (repeat 0 600)
          [probe_idle; (0, []); probe_idle; (0, []);
           probe_idle; (0, []); probe_idle; (0, [])])))
  = 4%nat.
Proof.
  apply Nat2Z.inj.
  rewrite (write_page_count (B := scripted_bus) 600 at25sf041_nor 250 600).
  - reflexivity.
  - vm_compute. discriminate.
  - lia.
  - vm_compute. reflexivity.
  - vm_compute. lia.
  - forall_by_computation.
Defined.

(** A write on a bus that fails every transaction returns. *)
Lemma write_always_returns_witness :
  exists v,
    result_of (at25sf041_write (B := scripted_bus) 600 at25sf041_nor 250 600
                 (repeat 0 600) []) = Some v.
Proof.
  apply (write_always_returns (B := scripted_bus)).
  vm_compute. lia.
Defined.

(** A write of no bytes one byte past the end of the chip is taken for a
    write of 2^32 - 1 bytes. *)
Lemma write_past_capacity_witness :
  at25sf041_write_len at25sf041_nor 0x80001 0 = 2 ^ 32 - 1 /\
  exists page r rest,
    page_calls (events_of
      (at25sf041_write (B := scripted_bus) 1 at25sf041_nor 0x80001 0 []
         [probe_idle; (-110, [])]))
    = (page, r) :: rest /\
    spi_addr_start page = 0x80001 /\ 1 <= len page.
Proof.
  apply (write_past_capacity (B := scripted_bus) 1 at25sf041_nor 0x80001 0).
  - unfold at25sf041_nor, SSIZE_MAX. simpl. lia.
  - unfold at25sf041_nor, SIZE_MAX. simpl. lia.
  - unfold SIZE_MAX. lia.
  - lia.
Defined.

(** The second page program times out. *)
Lemma write_pages_fail_or_complete_witness :
  Forall (fun call => snd call < 0 \/ snd call = len (fst call))
    (page_calls (events_of
       (at25sf041_write (B := scripted_bus) 2 at25sf041_nor 253 10
          (repeat 0 10) [probe_idle; (0, []); probe_idle; (-110, [])]))).
Proof.
  apply (write_pages_fail_or_complete (B := scripted_bus)).
  forall_by_computation.
Defined.

(** The write of 10 bytes at 253 is four transactions. *)
Lemma write_transactions_witness :
  List.length
    (syncs (events_of
       (at25sf041_write (B := scripted_bus) 2 at25sf041_nor 253 10
          (repeat 0 10) [probe_idle; (0, []); probe_idle; (0, [])])))
  = 4%nat.
Proof.
  rewrite (write_transactions (B := scripted_bus)).
  - reflexivity.
  - forall_by_computation.
  - forall_by_computation.
Defined.
